(** * IREE build glue: model-group registry and the iree-tools-tflite packaging script

    Shallow embedding of

    - [build_tools/python/e2e_test_framework/models/model_groups.py]
      (the lists [SMALL], [LARGE] and [ALL]);
    - [integrations/tensorflow/python_projects/iree_tflite/setup.py]
      (the top-level packaging script and its two command classes).

    The packaging script is a sequence of top-level statements that talk to
    the operating system and to library code.  Everything the script asks of
    its surroundings is gathered in the record [Host]; the script itself is
    written in a small trace-and-exception monad, one bind per statement. *)

From Stdlib Require Import Floats.SpecFloat.
From stdpp Require Import gmap strings list fin_maps.

Open Scope string_scope.

(* ===================================================================== *)
(** ** Model groups *)
(* ===================================================================== *)

Module ModelGroups.

(** The imported modules [tflite_models] and [tf_models]: each is a
    namespace of model descriptors.  A descriptor is opaque here. *)
Record tflite_models_module (Model : Type) := {
  DEEPLABV3_FP32 : Model;
  MOBILESSD_FP32 : Model;
  POSENET_FP32 : Model;
  MOBILEBERT_FP32 : Model;
  MOBILEBERT_INT8 : Model;
  MOBILEBERT_FP16 : Model;
  MOBILENET_V1 : Model;
  MOBILENET_V2 : Model;
  MOBILENET_V3SMALL : Model;
  PERSON_DETECT_INT8 : Model;
  EFFICIENTNET_INT8 : Model;
}.

Record tf_models_module (Model : Type) := {
  MINILM_L12_H384_UNCASED_INT32_SEQLEN128 : Model;
}.

Arguments DEEPLABV3_FP32 {Model}.
Arguments MOBILESSD_FP32 {Model}.
Arguments POSENET_FP32 {Model}.
Arguments MOBILEBERT_FP32 {Model}.
Arguments MOBILEBERT_INT8 {Model}.
Arguments MOBILEBERT_FP16 {Model}.
Arguments MOBILENET_V1 {Model}.
Arguments MOBILENET_V2 {Model}.
Arguments MOBILENET_V3SMALL {Model}.
Arguments PERSON_DETECT_INT8 {Model}.
Arguments EFFICIENTNET_INT8 {Model}.
Arguments MINILM_L12_H384_UNCASED_INT32_SEQLEN128 {Model}.

Section Groups.
Context {Model : Type}.
Variable tflite_models : tflite_models_module Model.
Variable tf_models : tf_models_module Model.

(** Small models that require less computational resources. *)
Definition SMALL : list Model :=
  [ DEEPLABV3_FP32 tflite_models;
    MOBILESSD_FP32 tflite_models;
    POSENET_FP32 tflite_models;
    MOBILEBERT_FP32 tflite_models;
    MOBILEBERT_INT8 tflite_models;
    MOBILEBERT_FP16 tflite_models;
    MOBILENET_V1 tflite_models;
    MOBILENET_V2 tflite_models;
    MOBILENET_V3SMALL tflite_models;
    PERSON_DETECT_INT8 tflite_models;
    EFFICIENTNET_INT8 tflite_models ].

(** Large models that require more computational resources. *)
Definition LARGE : list Model :=
  [ MINILM_L12_H384_UNCASED_INT32_SEQLEN128 tf_models ].

(** [ALL = SMALL + LARGE]: Python's list [+] builds the new list made of
    the left operand's items followed by the right operand's. *)
Definition ALL : list Model := (SMALL ++ LARGE)%list.

(** The groups other than the aggregate, in the order the module
    declares them. *)
Definition declared_groups : list (list Model) := [SMALL; LARGE].
End Groups.

End ModelGroups.

(* ===================================================================== *)
(** ** Python values *)
(* ===================================================================== *)

Set Warnings "-register-all".

(** What [json.load] can return, which is also all the script ever stores
    in an attribute: [None], [bool], [int], [float], [str], [list] and a
    [dict] with string keys. *)
Inductive pyval : Type :=
  | PNone
  | PBool (b : bool)
  | PInt (n : Z)
  | PFloat (x : spec_float)
  | PStr (s : string)
  | PList (l : list pyval)
  | PDict (d : gmap string pyval).

(** Truth value of an object, as [or] and [if] test it. *)
Definition truthy (v : pyval) : bool :=
  match v with
  | PNone => false
  | PBool b => b
  | PInt n => negb (n =? 0)%Z
  | PFloat (S754_zero _) => false
  | PFloat _ => true
  | PStr s => negb (String.eqb s "")
  | PList l => match l with [] => false | _ => true end
  | PDict d => negb (bool_decide (d = ∅))
  end.

(** [a or b] with [b] already evaluated (the script's right operands are
    literals). *)
Definition py_or (a b : pyval) : pyval := if truthy a then a else b.

(** Name of a value's class, as it appears in error messages. *)
Definition type_name (v : pyval) : string :=
  match v with
  | PNone => "NoneType"
  | PBool _ => "bool"
  | PInt _ => "int"
  | PFloat _ => "float"
  | PStr _ => "str"
  | PList _ => "list"
  | PDict _ => "dict"
  end.

(* ===================================================================== *)
(** ** Exceptions, outcomes and the script monad *)
(* ===================================================================== *)

Inductive exn : Type :=
  | RuntimeError (msg : string)
  | AttributeError (msg : string)
  | FileNotFoundError (msg : string)
  | ImportError (msg : string)
  | JSONDecodeError (msg : string)
  (** any other exception class raised by library code, by class name *)
  | LibraryError (cls msg : string).

Inductive outcome (A : Type) : Type :=
  | Returned (a : A)
  | Raised (e : exn).
Arguments Returned {A} a.
Arguments Raised {A} e.

(** Attribute store of a command object ([self.__dict__]). *)
Abbreviation attrs := (gmap string pyval).

(** The class [wheel.bdist_wheel.bdist_wheel], through the two methods the
    script's subclass calls. *)
Record wheel_base := {
  base_wheel_finalize_options : attrs -> outcome attrs;
  base_get_tag : attrs -> outcome (string * string * string);
}.

(** The class [distutils.command.install.install], through the one method
    the script's subclass calls. *)
Record install_base := {
  base_install_finalize_options : attrs -> outcome attrs;
}.

(** The two classes the script defines; each closes over its base class. *)
Inductive py_class : Type :=
  | bdist_wheel (_bdist_wheel : wheel_base)
  | platlib_install (install : install_base).

(** Keyword arguments of the call [setup(...)]. *)
Record setup_kwargs := {
  name : string;
  version : string;
  author : string;
  author_email : string;
  license : string;
  description : string;
  long_description : string;
  long_description_content_type : string;
  url : string;
  classifiers : list string;
  python_requires : string;
  packages : list string;
  package_data : gmap string (list string);
  (** a value is a class object or [None] *)
  cmdclass : gmap string (option py_class);
  entry_points : gmap string (list string);
  zip_safe : bool;
}.

(** What the script does to its surroundings, in the order it does it. *)
Inductive event : Type :=
  | EvPlatformSystem
  | EvAccessXOK (path : string)
  | EvOpen (path : string)
  | EvPrint (line : string)
  | EvImportWheel
  | EvSetup (kw : setup_kwargs).

(** A file as the script can observe it. *)
Record file := {
  (** the calling user may execute it *)
  executable : bool;
  (** [open(path, "rt")] followed by reading it whole: the text, or the
      exception raised (PermissionError, IsADirectoryError,
      UnicodeDecodeError, ...) *)
  read_text : outcome string;
}.

(** Everything outside the script: the operating system, the file system
    and the library functions it calls.  The model starts after the import
    block at the top of the file. *)
Record Host := {
  (** [platform.system()] *)
  platform_system : string;
  (** [os.path.dirname(__file__)] *)
  dirname_file : string;
  (** [os.path.join] of a first component and the further ones *)
  os_path_join : string -> list string -> string;
  (** [os.path.realpath] *)
  os_path_realpath : string -> string;
  (** the file system: [None] where no file exists at the path *)
  fs : string -> option file;
  (** [json.loads] on the text of a file: the value, or the exception *)
  json_loads : string -> outcome pyval;
  (** [format(v, "")] for a value other than a [str] *)
  py_format : pyval -> string;
  (** [from wheel.bdist_wheel import bdist_wheel]: the class, or the
      exception raised *)
  import_wheel_bdist_wheel : outcome wheel_base;
  (** [distutils.command.install.install] *)
  distutils_install : install_base;
  (** [setuptools.find_namespace_packages(include=...)] *)
  find_namespace_packages : list string -> list string;
  (** the call of [setuptools.setup]: [None] when it returns, or the
      exception it raises *)
  setuptools_setup : setup_kwargs -> option exn;
}.

(** A computation appends to the trace of events and returns or raises. *)
Definition M (A : Type) : Type := list event -> outcome A * list event.

Definition ret {A} (a : A) : M A := fun tr => (Returned a, tr).

Definition bind {A B} (m : M A) (k : A -> M B) : M B :=
  fun tr =>
    match m tr with
    | (Returned a, tr') => k a tr'
    | (Raised e, tr') => (Raised e, tr')
    end.

Definition raise {A} (e : exn) : M A := fun tr => (Raised e, tr).

Definition log (ev : event) : M unit := fun tr => (Returned tt, (tr ++ [ev])%list).

Definition lift {A} (o : outcome A) : M A := fun tr => (o, tr).

(** [try: body  except <class>: handler]: [handler e] is [Some k] when the
    clause matches [e]. *)
Definition try_except {A} (body : M A) (handler : exn -> option (M A)) : M A :=
  fun tr =>
    match body tr with
    | (Returned a, tr') => (Returned a, tr')
    | (Raised e, tr') =>
        match handler e with
        | Some k => k tr'
        | None => (Raised e, tr')
        end
    end.

#[global] Instance M_ret : MRet M := @ret.
#[global] Instance M_bind : MBind M := fun A B k m => bind m k.

(* ===================================================================== *)
(** ** setup.py *)
(* ===================================================================== *)

Definition README : string := "
TensorFlow TFLite Compiler Tools
".

(** [os.access(path, os.X_OK)]: false when nothing exists at [path]. *)
Definition os_access_X_OK (h : Host) (path : string) : M bool :=
  log (EvAccessXOK path) ;;
  mret (match fs h path with
       | Some f => executable f
       | None => false
       end).

(** [open(path, "rt")] and reading the text. *)
Definition open_rt (h : Host) (path : string) : M string :=
  log (EvOpen path) ;;
  match fs h path with
  | Some f => lift (read_text f)
  | None => raise (FileNotFoundError path)
  end.

Definition print (line : string) : M unit := log (EvPrint line).

(** An f-string field [{v}] with no format spec. *)
Definition fstr (h : Host) (v : pyval) : string :=
  match v with
  | PStr s => s
  | _ => py_format h v
  end.

(** [obj.get(key)]: only a [dict] has the method; a missing key gives
    [None]. *)
Definition py_get (obj : pyval) (key : string) : M pyval :=
  match obj with
  | PDict d => mret (default PNone (d !! key))
  | _ => raise (AttributeError
                  ("'" +:+ type_name obj +:+ "' object has no attribute 'get'"))
  end.

(** [platform.system()] *)
Definition platform_system_call (h : Host) : M string :=
  log EvPlatformSystem ;;
  mret (platform_system h).

(** Line 22, as a function of what [platform.system()] returned. *)
Definition exe_suffix (system : string) : string :=
  if String.eqb system "Windows" then ".exe" else "".

(** Lines 23-24. *)
Definition import_tflite_path (h : Host) (exe_suffix : string) : string :=
  os_path_join h (dirname_file h)
    ["iree"; "tools"; "tflite"; "iree-import-tflite" +:+ exe_suffix].

Definition tool_not_found (import_tflite_path : string) : string :=
  "Tool not found (" +:+ import_tflite_path +:+ "). Be sure to build "
  +:+ "//iree_tf_compiler:iree-import-tflite and run ./symlink_binaries.sh".

(** Lines 22-28: the suffix, the path of the tool and the check on it.
    Returns [exe_suffix], which the call of [setup] uses again. *)
Definition resolve_executable (h : Host) : M string :=
  system ← platform_system_call h ;
  let exe_suffix := exe_suffix system in
  let import_tflite_path := import_tflite_path h exe_suffix in
  ok ← os_access_X_OK h import_tflite_path ;
  if negb ok then raise (RuntimeError (tool_not_found import_tflite_path))
  else mret exe_suffix.

(** Lines 31-33. *)
Definition THIS_DIR (h : Host) : string := os_path_realpath h (dirname_file h).
Definition IREESRC_DIR (h : Host) : string :=
  os_path_join h (THIS_DIR h) [".."; ".."; ".."; ".."].
Definition VERSION_INFO_FILE (h : Host) : string :=
  os_path_join h (IREESRC_DIR h) ["version_info.json"].

Definition load_version_info (h : Host) : M pyval :=
  text ← open_rt h (VERSION_INFO_FILE h) ;
  lift (json_loads h text).

(** Lines 41-45: only [FileNotFoundError] is handled. *)
Definition load_version (h : Host) : M pyval :=
  try_except (load_version_info h)
    (fun e =>
       match e with
       | FileNotFoundError _ =>
           Some (print "version_info.json not found. Using defaults" ;;
                 mret (PDict ∅))
       | _ => None
       end).

(** Lines 47-48: [(PACKAGE_SUFFIX, PACKAGE_VERSION)]. *)
Definition compute_identity (version_info : pyval) : M (pyval * pyval) :=
  suffix ← py_get version_info "package-suffix" ;
  let PACKAGE_SUFFIX := py_or suffix (PStr "") in
  ver ← py_get version_info "package-version" ;
  let PACKAGE_VERSION := py_or ver (PStr "0.1dev1") in
  mret (PACKAGE_SUFFIX, PACKAGE_VERSION).

(** Lines 57-59: [bdist_wheel.finalize_options]. *)
Definition bdist_wheel_finalize_options
    (_bdist_wheel : wheel_base) (self : attrs) : outcome attrs :=
  match base_wheel_finalize_options _bdist_wheel self with
  | Returned self => Returned (<["root_is_pure" := PBool false]> self)
  | Raised e => Raised e
  end.

(** Lines 61-66: [bdist_wheel.get_tag]. *)
Definition bdist_wheel_get_tag
    (_bdist_wheel : wheel_base) (self : attrs) : outcome (string * string * string) :=
  match base_get_tag _bdist_wheel self with
  | Returned (python, abi, plat) =>
      let '(python, abi) := ("py3", "none") in
      Returned (python, abi, plat)
  | Raised e => Raised e
  end.

(** Lines 78-80: [platlib_install.finalize_options]. *)
Definition platlib_install_finalize_options
    (install : install_base) (self : attrs) : outcome attrs :=
  match base_install_finalize_options install self with
  | Returned self =>
      match self !! "install_platlib" with
      | Some install_platlib => Returned (<["install_lib" := install_platlib]> self)
      | None =>
          Raised (AttributeError
                    "'platlib_install' object has no attribute 'install_platlib'")
      end
  | Raised e => Raised e
  end.

(** Method lookup on an instance of one of the two classes. *)
Definition finalize_options (cls : py_class) (self : attrs) : outcome attrs :=
  match cls with
  | bdist_wheel b => bdist_wheel_finalize_options b self
  | platlib_install i => platlib_install_finalize_options i self
  end.

Definition get_tag (cls : py_class) (self : attrs) : outcome (string * string * string) :=
  match cls with
  | bdist_wheel b => bdist_wheel_get_tag b self
  | platlib_install _ =>
      Raised (AttributeError "'platlib_install' object has no attribute 'get_tag'")
  end.

(** Lines 52-69: the module-level name [bdist_wheel] is the subclass, or
    [None] when the import raises [ImportError] (which
    [ModuleNotFoundError] is a subclass of). *)
Definition define_bdist_wheel (h : Host) : M (option py_class) :=
  try_except
    (log EvImportWheel ;;
     _bdist_wheel ← lift (import_wheel_bdist_wheel h) ;
     mret (Some (bdist_wheel _bdist_wheel)))
    (fun e =>
       match e with
       | ImportError _ => Some (mret None)
       | _ => None
       end).

(** Lines 83-116: the keyword arguments of the call. *)
Definition setup_arguments (h : Host) (exe_suffix : string)
    (PACKAGE_SUFFIX PACKAGE_VERSION : pyval)
    (bdist_wheel : option py_class) (platlib_install : py_class) : setup_kwargs :=
  {| name := "iree-tools-tflite" +:+ fstr h PACKAGE_SUFFIX;
     version := fstr h PACKAGE_VERSION;
     author := "The IREE Team";
     author_email := "iree-discuss@googlegroups.com";
     license := "Apache-2.0";
     description := "IREE TFLite Compiler Tools";
     long_description := README;
     long_description_content_type := "text/markdown";
     url := "https://github.com/iree-org/iree";
     classifiers :=
       [ "Development Status :: 3 - Alpha";
         "License :: OSI Approved :: Apache Software License";
         "Programming Language :: Python :: 3" ];
     python_requires := ">=3.7";
     packages :=
       find_namespace_packages h ["iree.tools.tflite"; "iree.tools.tflite.*"];
     package_data :=
       {[ "iree.tools.tflite" := ["iree-import-tflite" +:+ exe_suffix] ]};
     cmdclass :=
       <["bdist_wheel" := bdist_wheel]>
         (<["install" := Some platlib_install]> ∅);
     entry_points :=
       {[ "console_scripts" :=
            ["iree-import-tflite = iree.tools.tflite.scripts.iree_import_tflite.__main__:main"] ]};
     zip_safe := false |}.

(** Lines 50-116: the two classes and the call of [setup]. *)
Definition emit (h : Host) (exe_suffix : string)
    (PACKAGE_SUFFIX PACKAGE_VERSION : pyval) : M unit :=
  bdist_wheel ← define_bdist_wheel h ;
  let platlib_install := platlib_install (distutils_install h) in
  let kw := setup_arguments h exe_suffix PACKAGE_SUFFIX PACKAGE_VERSION
              bdist_wheel platlib_install in
  log (EvSetup kw) ;;
  match setuptools_setup h kw with
  | None => mret tt
  | Some e => raise e
  end.

(** The whole script, top to bottom. *)
Definition setup_py (h : Host) : M unit :=
  exe_suffix ← resolve_executable h ;
  version_info ← load_version h ;
  '(PACKAGE_SUFFIX, PACKAGE_VERSION) ← compute_identity version_info ;
  emit h exe_suffix PACKAGE_SUFFIX PACKAGE_VERSION.

(** Running it from an empty trace. *)
Definition run (h : Host) : outcome unit * list event := setup_py h [].

(* ===================================================================== *)
(** ** Vocabulary of the properties *)
(* ===================================================================== *)

(** [s] occurs in [t]. *)
Definition occurs_in (s t : string) : Prop :=
  ∃ before after, t = before +:+ s +:+ after.

(** The four stages of the script. *)
Inductive stage : Type := Resolve | LoadVersion | ComputeIdentity | Emit.

Definition stage_rank (s : stage) : nat :=
  match s with
  | Resolve => 0
  | LoadVersion => 1
  | ComputeIdentity => 2
  | Emit => 3
  end.

(** The stage an event belongs to.  Computing the identity touches
    nothing outside the script, so no event belongs to it. *)
Definition stage_of (ev : event) : stage :=
  match ev with
  | EvPlatformSystem | EvAccessXOK _ => Resolve
  | EvOpen _ | EvPrint _ => LoadVersion
  | EvImportWheel | EvSetup _ => Emit
  end.

(** Each event's stage is at least the one before it. *)
Fixpoint forward_only (tr : list event) : Prop :=
  match tr with
  | [] => True
  | ev :: rest =>
      Forall (fun ev' => (stage_rank (stage_of ev) ≤ stage_rank (stage_of ev'))%nat) rest
      ∧ forward_only rest
  end.

(** No event of a stage after [s]. *)
Definition nothing_after (s : stage) (tr : list event) : Prop :=
  Forall (fun ev => (stage_rank (stage_of ev) ≤ stage_rank s)%nat) tr.

Definition is_platform_system (ev : event) : bool :=
  match ev with EvPlatformSystem => true | _ => false end.

Definition is_setup (ev : event) : bool :=
  match ev with EvSetup _ => true | _ => false end.

(** The tool is there and may be executed. *)
Definition artifact_ok (h : Host) : Prop :=
  ∃ f, fs h (import_tflite_path h (exe_suffix (platform_system h))) = Some f
       ∧ executable f = true.

(** The two fields of a version record hold strings when present. *)
Definition string_field (d : gmap string pyval) (key : string) : Prop :=
  d !! key = None ∨ ∃ s, d !! key = Some (PStr s).

(** The identity as the specification words it: base name plus the suffix
    field (empty when absent); the version field, or the placeholder when
    absent or empty. *)
Definition spec_package_name (d : gmap string pyval) : string :=
  "iree-tools-tflite" +:+
  match d !! "package-suffix" with
  | Some (PStr s) => s
  | _ => ""
  end.

Definition spec_package_version (d : gmap string pyval) : string :=
  match d !! "package-version" with
  | Some (PStr s) => if String.eqb s "" then "0.1dev1" else s
  | _ => "0.1dev1"
  end.

(* ===================================================================== *)
(** ** Concrete hosts *)
(* ===================================================================== *)

Definition ends_with_slash (a : string) : bool :=
  String.eqb (String.substring (String.length a - 1)%nat 1 a) "/".

(** [posixpath.join]. *)
Fixpoint posix_join (a : string) (p : list string) : string :=
  match p with
  | [] => a
  | b :: p =>
      posix_join
        (if String.prefix "/" b then b
         else if String.eqb a "" || ends_with_slash a then a +:+ b
         else a +:+ "/" +:+ b)
        p
  end.

Definition dq : string := String (Ascii.ascii_of_nat 34) "".

(** The text of a version file with both fields. *)
Definition nightly_text : string :=
  "{" +:+ dq +:+ "package-suffix" +:+ dq +:+ ": " +:+ dq +:+ "-nightly" +:+ dq
  +:+ ", " +:+ dq +:+ "package-version" +:+ dq +:+ ": " +:+ dq +:+ "1.2.3" +:+ dq
  +:+ "}".

Definition nightly_record : gmap string pyval :=
  <["package-suffix" := PStr "-nightly"]>
    (<["package-version" := PStr "1.2.3"]> ∅).

(** A version file whose fields are there but empty or [null]. *)
Definition hollow_text : string :=
  "{" +:+ dq +:+ "package-suffix" +:+ dq +:+ ": null, "
  +:+ dq +:+ "package-version" +:+ dq +:+ ": " +:+ dq +:+ dq +:+ "}".

Definition hollow_record : gmap string pyval :=
  <["package-suffix" := PNone]> (<["package-version" := PStr ""]> ∅).

(** A toy [json.loads], enough for the texts used here. *)
Definition toy_json_loads (text : string) : outcome pyval :=
  if String.eqb text nightly_text then Returned (PDict nightly_record)
  else if String.eqb text hollow_text then Returned (PDict hollow_record)
  else if String.eqb text "[]" then Returned (PList [])
  else Raised (JSONDecodeError "Expecting value: line 1 column 1 (char 0)").

Definition toy_wheel : wheel_base :=
  {| base_wheel_finalize_options self := Returned (<["root_is_pure" := PBool true]> self);
     base_get_tag _ := Returned ("cp310", "cp310", "linux_x86_64") |}.

Definition toy_install : install_base :=
  {| base_install_finalize_options self :=
       Returned (<["install_platlib" := PStr "/usr/lib64/python3/site-packages"]>
                   (<["install_lib" := PStr "/usr/lib/python3/site-packages"]> self)) |}.

Definition tool_file : file :=
  {| executable := true; read_text := Raised (LibraryError "UnicodeDecodeError" "") |}.

(** A Linux checkout at [/src/iree_tflite] with the tool built (when
    [tool] is given) and a version file with text [version] (when
    given). *)
Definition linux_host (tool : option file) (version : option string)
    (wheel : outcome wheel_base) : Host :=
  {| platform_system := "Linux";
     dirname_file := "/src/iree_tflite";
     os_path_join := posix_join;
     os_path_realpath p := p;
     fs p :=
       if String.eqb p "/src/iree_tflite/iree/tools/tflite/iree-import-tflite"
       then tool
       else if String.eqb p "/src/iree_tflite/../../../../version_info.json"
       then (fun t => {| executable := false; read_text := Returned t |}) <$> version
       else None;
     json_loads := toy_json_loads;
     py_format _ := "";
     import_wheel_bdist_wheel := wheel;
     distutils_install := toy_install;
     find_namespace_packages incl := ["iree.tools.tflite"];
     setuptools_setup _ := None |}.

Definition no_wheel : outcome wheel_base :=
  Raised (ImportError "No module named 'wheel'").

(** The tool built, a version file with both fields, [wheel] installed. *)
Definition nightly_host : Host :=
  linux_host (Some tool_file) (Some nightly_text) (Returned toy_wheel).

(** The same with a version file whose fields are [null] and empty. *)
Definition hollow_host : Host :=
  linux_host (Some tool_file) (Some hollow_text) (Returned toy_wheel).

(** The tool built and no version file. *)
Definition bare_host : Host :=
  linux_host (Some tool_file) None (Returned toy_wheel).

(** The tool built, no version file, [wheel] not installed. *)
Definition wheelless_host : Host :=
  linux_host (Some tool_file) None no_wheel.

(** The tool built and a version file that is not JSON. *)
Definition garbled_host : Host :=
  linux_host (Some tool_file) (Some "{") (Returned toy_wheel).

(** What [load_version_info] gives, apart from the trace. *)
Definition loaded (h : Host) : outcome pyval :=
  match fs h (VERSION_INFO_FILE h) with
  | None => Raised (FileNotFoundError (VERSION_INFO_FILE h))
  | Some f =>
      match read_text f with
      | Returned text => json_loads h text
      | Raised e => Raised e
      end
  end.

(** The path the script checks on host [h]. *)
Definition tool_path (h : Host) : string :=
  import_tflite_path h (exe_suffix (platform_system h)).

Definition not_found_line : string := "version_info.json not found. Using defaults".

(** The class object bound to the name [bdist_wheel] once the import has
    been tried, when that did not abort the script. *)
Definition bound_bdist_wheel (h : Host) : outcome (option py_class) :=
  match import_wheel_bdist_wheel h with
  | Returned b => Returned (Some (bdist_wheel b))
  | Raised (ImportError _) => Returned None
  | Raised e => Raised e
  end.

(** The record the script goes on with after lines 41-45. *)
Definition version_record (h : Host) : outcome pyval :=
  match loaded h with
  | Returned v => Returned v
  | Raised (FileNotFoundError _) => Returned (PDict ∅)
  | Raised e => Raised e
  end.

(** What lines 41-45 add to the trace. *)
Definition load_events (h : Host) : list event :=
  match loaded h with
  | Raised (FileNotFoundError _) =>
      [EvOpen (VERSION_INFO_FILE h); EvPrint not_found_line]
  | _ => [EvOpen (VERSION_INFO_FILE h)]
  end.

(** Lines 47-48 on a record. *)
Definition PACKAGE_SUFFIX (d : gmap string pyval) : pyval :=
  py_or (default PNone (d !! "package-suffix")) (PStr "").
Definition PACKAGE_VERSION (d : gmap string pyval) : pyval :=
  py_or (default PNone (d !! "package-version")) (PStr "0.1dev1").

(** Lines 84-85 on a record: the [name] and [version] arguments. *)
Definition package_identity (h : Host) (d : gmap string pyval) : string * string :=
  ("iree-tools-tflite" +:+ fstr h (PACKAGE_SUFFIX d), fstr h (PACKAGE_VERSION d)).

(** The keyword arguments of the calls of [setup] in a trace. *)
Fixpoint setup_calls (tr : list event) : list setup_kwargs :=
  match tr with
  | [] => []
  | EvSetup kw :: tr => kw :: setup_calls tr
  | _ :: tr => setup_calls tr
  end.

(** The lines printed in a trace. *)
Fixpoint printed (tr : list event) : list string :=
  match tr with
  | [] => []
  | EvPrint l :: tr => l :: printed tr
  | _ :: tr => printed tr
  end.

(** The text of an existing version file is not a record: it is not JSON
    at all, or it is JSON for something other than an object. *)
Definition unparsable (h : Host) (text : string) : Prop :=
  (∃ m, json_loads h text = Raised (JSONDecodeError m))
  ∨ (∃ v, json_loads h text = Returned v ∧ ∀ d, v ≠ PDict d).

(** The exceptions a version file that is not a record ends in. *)
Definition parse_failure (e : exn) : Prop :=
  match e with
  | JSONDecodeError _ | AttributeError _ => True
  | _ => False
  end.

(** The paths opened in a trace. *)
Fixpoint opened (tr : list event) : list string :=
  match tr with
  | [] => []
  | EvOpen path :: tr => path :: opened tr
  | _ :: tr => opened tr
  end.

(** The check of lines 25-28 as a boolean. *)
Definition artifact_okb (h : Host) : bool :=
  match fs h (tool_path h) with
  | Some f => executable f
  | None => false
  end.

(** The exception is the one the clause at line 43 catches. *)
Definition is_file_not_found (e : exn) : bool :=
  match e with FileNotFoundError _ => true | _ => false end.

(** The exception is the one the clause at line 68 catches. *)
Definition is_import_error (e : exn) : bool :=
  match e with ImportError _ => true | _ => false end.

(** Host [h] with file [f] at the place of the version file. *)
Definition with_version_file (h : Host) (f : file) : Host :=
  {| platform_system := platform_system h;
     dirname_file := dirname_file h;
     os_path_join := os_path_join h;
     os_path_realpath := os_path_realpath h;
     fs p := if String.eqb p (VERSION_INFO_FILE h) then Some f else fs h p;
     json_loads := json_loads h;
     py_format := py_format h;
     import_wheel_bdist_wheel := import_wheel_bdist_wheel h;
     distutils_install := distutils_install h;
     find_namespace_packages := find_namespace_packages h;
     setuptools_setup := setuptools_setup h |}.

(** The tool built and a version file that may not be read. *)
Definition locked_host : Host :=
  with_version_file bare_host
    {| executable := false;
       read_text := Raised (LibraryError "PermissionError" "Permission denied") |}.

(** The tool built, no version file, a [wheel] that fails to load for
    another reason than being absent. *)
Definition broken_wheel_host : Host :=
  linux_host (Some tool_file) None
    (Raised (LibraryError "SyntaxError" "invalid syntax")).

(** The tool built, no version file, a packaging tool that fails. *)
Definition failing_setup_host : Host :=
  {| platform_system := "Linux";
     dirname_file := "/src/iree_tflite";
     os_path_join := posix_join;
     os_path_realpath p := p;
     fs := fs bare_host;
     json_loads := toy_json_loads;
     py_format _ := "";
     import_wheel_bdist_wheel := Returned toy_wheel;
     distutils_install := toy_install;
     find_namespace_packages incl := ["iree.tools.tflite"];
     setuptools_setup _ := Some (LibraryError "SystemExit" "error: invalid command") |}.

(** Joining relative components with backslashes, enough of
    [ntpath.join] for the components of the script. *)
Definition backslash_join (a : string) (p : list string) : string :=
  foldl (fun acc b => acc +:+ "\" +:+ b) a p.

(** A Windows checkout with the tool built and no version file. *)
Definition windows_host : Host :=
  {| platform_system := "Windows";
     dirname_file := "C:\src\iree_tflite";
     os_path_join := backslash_join;
     os_path_realpath p := p;
     fs p :=
       if String.eqb p "C:\src\iree_tflite\iree\tools\tflite\iree-import-tflite.exe"
       then Some tool_file else None;
     json_loads := toy_json_loads;
     py_format _ := "";
     import_wheel_bdist_wheel := Returned toy_wheel;
     distutils_install := toy_install;
     find_namespace_packages incl := ["iree.tools.tflite"];
     setuptools_setup _ := None |}.

(** Loading the version record raised the exception line 43 catches. *)
Definition version_file_missing (h : Host) : bool :=
  match loaded h with
  | Raised e => is_file_not_found e
  | Returned _ => false
  end.

(** The arguments of the call of [setup] on host [h] with record [d] and
    class [c] bound to [bdist_wheel]. *)
Definition arguments_of (h : Host) (d : gmap string pyval)
    (c : option py_class) : setup_kwargs :=
  setup_arguments h (exe_suffix (platform_system h))
    (PACKAGE_SUFFIX d) (PACKAGE_VERSION d) c
    (platlib_install (distutils_install h)).


(** What marks a wheel: the purity flag of its metadata and its tag. *)
Record wheel := {
  root_is_purelib : option pyval;
  tag : string * string * string;
}.



(** The tool built, a version file with both fields, [wheel] not
    installed. *)
Definition nightly_wheelless_host : Host :=
  linux_host (Some tool_file) (Some nightly_text) no_wheel.

(* ===================================================================== *)
(** ** The script, statement by statement *)
(* ===================================================================== *)

Ltac run_script :=
  unfold mbind, M_bind, bind, mret, M_ret, ret, log, raise, lift, try_except;
  simpl.

Ltac stage_order := simpl; repeat (constructor; simpl; try lia).

Lemma resolve_executable_run (h : Host) (tr : list event) :
  resolve_executable h tr =
  ( match fs h (tool_path h) with
    | Some f =>
        if executable f then Returned (exe_suffix (platform_system h))
        else Raised (RuntimeError (tool_not_found (tool_path h)))
    | None => Raised (RuntimeError (tool_not_found (tool_path h)))
    end,
    (tr ++ [EvPlatformSystem; EvAccessXOK (tool_path h)])%list ).
Proof.
  unfold resolve_executable, platform_system_call, os_access_X_OK, tool_path.
  run_script.
  rewrite <- app_assoc; simpl.
  destruct (fs h _) as [f|]; [destruct (executable f)|]; reflexivity.
Qed.

Lemma load_version_info_run (h : Host) (tr : list event) :
  load_version_info h tr = (loaded h, (tr ++ [EvOpen (VERSION_INFO_FILE h)])%list).
Proof.
  unfold load_version_info, open_rt, loaded. run_script.
  destruct (fs h _) as [f|]; [|reflexivity].
  destruct (read_text f); reflexivity.
Qed.

Lemma load_version_run (h : Host) (tr : list event) :
  load_version h tr =
  match loaded h with
  | Returned v => (Returned v, (tr ++ [EvOpen (VERSION_INFO_FILE h)])%list)
  | Raised (FileNotFoundError _) =>
      (Returned (PDict ∅),
       (tr ++ [EvOpen (VERSION_INFO_FILE h); EvPrint not_found_line])%list)
  | Raised e => (Raised e, (tr ++ [EvOpen (VERSION_INFO_FILE h)])%list)
  end.
Proof.
  unfold load_version, try_except. rewrite load_version_info_run.
  destruct (loaded h) as [v|e]; [reflexivity|].
  destruct e; try reflexivity.
  unfold print. run_script. rewrite <- app_assoc. reflexivity.
Qed.

Lemma compute_identity_run (version_info : pyval) (tr : list event) :
  compute_identity version_info tr =
  ( match version_info with
    | PDict d =>
        Returned (py_or (default PNone (d !! "package-suffix")) (PStr ""),
                  py_or (default PNone (d !! "package-version")) (PStr "0.1dev1"))
    | _ => Raised (AttributeError
                     ("'" +:+ type_name version_info
                      +:+ "' object has no attribute 'get'"))
    end, tr ).
Proof.
  unfold compute_identity, py_get. run_script.
  destruct version_info; reflexivity.
Qed.

Lemma define_bdist_wheel_run (h : Host) (tr : list event) :
  define_bdist_wheel h tr =
  ( match import_wheel_bdist_wheel h with
    | Returned b => Returned (Some (bdist_wheel b))
    | Raised (ImportError _) => Returned None
    | Raised e => Raised e
    end, (tr ++ [EvImportWheel])%list ).
Proof.
  unfold define_bdist_wheel. run_script.
  destruct (import_wheel_bdist_wheel h) as [b|e]; [reflexivity|].
  destruct e; reflexivity.
Qed.

Lemma emit_run (h : Host) (sfx : string) (s v : pyval) (tr : list event) :
  emit h sfx s v tr =
  match bound_bdist_wheel h with
  | Returned c =>
      let kw := setup_arguments h sfx s v c (platlib_install (distutils_install h)) in
      ( match setuptools_setup h kw with
        | None => Returned tt
        | Some e => Raised e
        end, (tr ++ [EvImportWheel; EvSetup kw])%list )
  | Raised e => (Raised e, (tr ++ [EvImportWheel])%list)
  end.
Proof.
  unfold emit. unfold mbind at 1, M_bind at 1, bind at 1.
  rewrite define_bdist_wheel_run. unfold bound_bdist_wheel.
  destruct (import_wheel_bdist_wheel h) as [b|e].
  - run_script. rewrite <- app_assoc. simpl.
    destruct (setuptools_setup h _); reflexivity.
  - destruct e; try reflexivity.
    run_script. rewrite <- app_assoc. simpl.
    destruct (setuptools_setup h _); reflexivity.
Qed.

Lemma load_version_split (h : Host) (tr : list event) :
  load_version h tr = (version_record h, (tr ++ load_events h)%list).
Proof.
  rewrite load_version_run. unfold version_record, load_events.
  destruct (loaded h) as [v|e]; [reflexivity|]. destruct e; reflexivity.
Qed.

(** The script is the four stages one after the other; a stage that
    raises ends it. *)
Lemma run_stages (h : Host) :
  run h =
  match resolve_executable h [] with
  | (Raised e, tr1) => (Raised e, tr1)
  | (Returned exe_suffix, tr1) =>
      match load_version h tr1 with
      | (Raised e, tr2) => (Raised e, tr2)
      | (Returned version_info, tr2) =>
          match compute_identity version_info tr2 with
          | (Raised e, tr3) => (Raised e, tr3)
          | (Returned (sfx, ver), tr3) => emit h exe_suffix sfx ver tr3
          end
      end
  end.
Proof.
  unfold run, setup_py, mbind, M_bind, bind.
  destruct (resolve_executable h []) as [[sfx|e] tr1]; [|reflexivity].
  destruct (load_version h tr1) as [[vi|e] tr2]; [|reflexivity].
  destruct (compute_identity vi tr2) as [[[s v]|e] tr3]; reflexivity.
Qed.

Lemma run_missing (h : Host) :
  (fs h (tool_path h) = None
   ∨ ∃ f, fs h (tool_path h) = Some f ∧ executable f = false) →
  run h = (Raised (RuntimeError (tool_not_found (tool_path h))),
           [EvPlatformSystem; EvAccessXOK (tool_path h)]).
Proof.
  intros Hm. rewrite run_stages, resolve_executable_run.
  destruct Hm as [-> | (f & -> & ->)]; reflexivity.
Qed.

Lemma run_resolved (h : Host) :
  artifact_ok h →
  run h =
  match version_record h with
  | Raised e =>
      (Raised e, ([EvPlatformSystem; EvAccessXOK (tool_path h)] ++ load_events h)%list)
  | Returned (PDict d) =>
      emit h (exe_suffix (platform_system h)) (PACKAGE_SUFFIX d) (PACKAGE_VERSION d)
        ([EvPlatformSystem; EvAccessXOK (tool_path h)] ++ load_events h)%list
  | Returned v =>
      (Raised (AttributeError
                 ("'" +:+ type_name v +:+ "' object has no attribute 'get'")),
       ([EvPlatformSystem; EvAccessXOK (tool_path h)] ++ load_events h)%list)
  end.
Proof.
  intros (f & Hf & Hx). rewrite run_stages, resolve_executable_run.
  fold (tool_path h) in Hf. rewrite Hf, Hx.
  rewrite load_version_split.
  destruct (version_record h) as [v|e]; [|reflexivity].
  rewrite compute_identity_run. destruct v; reflexivity.
Qed.

Lemma setup_calls_app (tr1 tr2 : list event) :
  setup_calls (tr1 ++ tr2) = (setup_calls tr1 ++ setup_calls tr2)%list.
Proof.
  induction tr1 as [|ev tr1 IH]; [reflexivity|].
  destruct ev; simpl; rewrite IH; reflexivity.
Qed.

Lemma setup_calls_load_events (h : Host) : setup_calls (load_events h) = [].
Proof.
  unfold load_events. destruct (loaded h) as [v|e]; [reflexivity|].
  destruct e; reflexivity.
Qed.

(** The calls of [setup] made by the last stage. *)
Lemma setup_calls_emit (h : Host) (sfx : string) (s v : pyval) (tr : list event) :
  setup_calls (snd (emit h sfx s v tr)) =
  (setup_calls tr ++
   match bound_bdist_wheel h with
   | Returned c =>
       [setup_arguments h sfx s v c (platlib_install (distutils_install h))]
   | Raised _ => []
   end)%list.
Proof.
  rewrite emit_run. destruct (bound_bdist_wheel h) as [c|e]; simpl;
    rewrite setup_calls_app; reflexivity.
Qed.

(** With the tool in place and a record loaded, the calls of [setup]. *)
Lemma setup_calls_run (h : Host) (d : gmap string pyval) :
  artifact_ok h →
  version_record h = Returned (PDict d) →
  setup_calls (snd (run h)) =
  match bound_bdist_wheel h with
  | Returned c =>
      [setup_arguments h (exe_suffix (platform_system h))
         (PACKAGE_SUFFIX d) (PACKAGE_VERSION d) c
         (platlib_install (distutils_install h))]
  | Raised _ => []
  end.
Proof.
  intros Ha Hv. rewrite (run_resolved h Ha), Hv, setup_calls_emit.
  rewrite setup_calls_app, setup_calls_load_events. reflexivity.
Qed.

Lemma occurs_in_middle (a s b : string) : occurs_in s (a +:+ s +:+ b).
Proof. exists a, b. reflexivity. Qed.

Lemma string_app_cons (x : Ascii.ascii) (a b : string) :
  String x a +:+ b = String x (a +:+ b).
Proof. reflexivity. Qed.

Lemma string_app_assoc (a b c : string) : (a +:+ b) +:+ c = a +:+ (b +:+ c).
Proof.
  induction a as [|x a IH]; [reflexivity|].
  rewrite !string_app_cons, IH. reflexivity.
Qed.

(* ===================================================================== *)
(** ** The model groups *)
(* ===================================================================== *)

(** C2: [ALL] is the concatenation of the declared groups, [SMALL] then
    [LARGE], in declaration order: every item of [SMALL] sits at its own
    index, every item of [LARGE] follows at its index shifted by the length
    of [SMALL], nothing is dropped, added, merged or reordered, whatever
    the descriptors are (equal ones included). *)
Theorem ALL_is_concatenation
    {Model : Type}
    (tflite_models : ModelGroups.tflite_models_module Model)
    (tf_models : ModelGroups.tf_models_module Model) :
  let SMALL := ModelGroups.SMALL tflite_models in
  let LARGE := ModelGroups.LARGE tf_models in
  let ALL := ModelGroups.ALL tflite_models tf_models in
  ALL = concat (ModelGroups.declared_groups tflite_models tf_models)
  ∧ ALL = (SMALL ++ LARGE)%list
  ∧ length ALL = (length SMALL + length LARGE)%nat
  ∧ length ALL = 12%nat
  ∧ (∀ i x, SMALL !! i = Some x → ALL !! i = Some x)
  ∧ (∀ i x, LARGE !! i = Some x → ALL !! (length SMALL + i)%nat = Some x)
  ∧ ALL =
    [ ModelGroups.DEEPLABV3_FP32 tflite_models;
      ModelGroups.MOBILESSD_FP32 tflite_models;
      ModelGroups.POSENET_FP32 tflite_models;
      ModelGroups.MOBILEBERT_FP32 tflite_models;
      ModelGroups.MOBILEBERT_INT8 tflite_models;
      ModelGroups.MOBILEBERT_FP16 tflite_models;
      ModelGroups.MOBILENET_V1 tflite_models;
      ModelGroups.MOBILENET_V2 tflite_models;
      ModelGroups.MOBILENET_V3SMALL tflite_models;
      ModelGroups.PERSON_DETECT_INT8 tflite_models;
      ModelGroups.EFFICIENTNET_INT8 tflite_models;
      ModelGroups.MINILM_L12_H384_UNCASED_INT32_SEQLEN128 tf_models ].
Proof.
  intros SMALL LARGE ALL.
  assert (HALL : ALL = (SMALL ++ LARGE)%list) by reflexivity.
  split; [|split; [exact HALL|split; [|split; [|split; [|split]]]]].
  - reflexivity.
  - rewrite HALL. apply length_app.
  - reflexivity.
  - intros i x Hi. rewrite HALL. apply lookup_app_l_Some. exact Hi.
  - intros i x Hi. rewrite HALL, lookup_app_r by lia.
    replace (length SMALL + i - length SMALL)%nat with i by lia. exact Hi.
  - reflexivity.
Qed.

(* ===================================================================== *)
(** ** Resolving the executable *)
(* ===================================================================== *)

(** C1: when nothing exists at the resolved path of the tool, or what is
    there may not be executed, the script ends in the [RuntimeError] of
    lines 26-28 (the specification's MissingArtifact).  Its message holds
    the resolved path and the instruction to build the tool and link the
    binaries.  The only things done before are reading the platform and
    checking the path: the version file is not opened, [setup] is never
    called. *)
Theorem missing_artifact_is_fatal (h : Host) :
  (fs h (tool_path h) = None
   ∨ ∃ f, fs h (tool_path h) = Some f ∧ executable f = false) →
  ∃ msg,
    run h = (Raised (RuntimeError msg),
             [EvPlatformSystem; EvAccessXOK (tool_path h)])
    ∧ tool_path h =
        os_path_join h (dirname_file h)
          ["iree"; "tools"; "tflite";
           "iree-import-tflite" +:+ exe_suffix (platform_system h)]
    ∧ occurs_in (tool_path h) msg
    ∧ occurs_in
        "Be sure to build //iree_tf_compiler:iree-import-tflite and run ./symlink_binaries.sh"
        msg
    ∧ setup_calls (snd (run h)) = []
    ∧ nothing_after Resolve (snd (run h)).
Proof.
  intros Hm. exists (tool_not_found (tool_path h)).
  rewrite (run_missing h Hm). simpl.
  split; [reflexivity|]. split; [reflexivity|].
  split; [apply occurs_in_middle|].
  split.
  - exists ("Tool not found (" +:+ tool_path h +:+ "). "), "".
    unfold tool_not_found. rewrite !string_app_assoc. reflexivity.
  - split; [reflexivity|].
    unfold nothing_after. repeat constructor.
Qed.

Lemma missing_artifact_is_fatal_witness :
  let h := linux_host None None no_wheel in
  (fs h (tool_path h) = None
   ∨ ∃ f, fs h (tool_path h) = Some f ∧ executable f = false)
  ∧ ∃ msg,
      run h = (Raised (RuntimeError msg),
               [EvPlatformSystem; EvAccessXOK (tool_path h)])
      ∧ tool_path h =
          os_path_join h (dirname_file h)
            ["iree"; "tools"; "tflite";
             "iree-import-tflite" +:+ exe_suffix (platform_system h)]
      ∧ occurs_in (tool_path h) msg
      ∧ occurs_in
          "Be sure to build //iree_tf_compiler:iree-import-tflite and run ./symlink_binaries.sh"
          msg
      ∧ setup_calls (snd (run h)) = []
      ∧ nothing_after Resolve (snd (run h)).
Proof.
  intros h. split.
  - left. reflexivity.
  - apply (missing_artifact_is_fatal h). left. reflexivity.
Defined.

(** C8: the file name of the tool is the base name [iree-import-tflite]
    followed by the suffix, under [iree/tools/tflite] below the directory
    of the script.  The suffix is [.exe] exactly when [platform.system()]
    is [Windows] and empty otherwise.  The platform is read once in a
    whole run, before the path is checked. *)
Theorem executable_path_by_platform (h : Host) :
  (exe_suffix (platform_system h) = ".exe" ↔ platform_system h = "Windows")
  ∧ (exe_suffix (platform_system h) = "" ↔ platform_system h ≠ "Windows")
  ∧ tool_path h =
      os_path_join h (dirname_file h)
        ["iree"; "tools"; "tflite";
         "iree-import-tflite" +:+ exe_suffix (platform_system h)]
  ∧ (∃ rest, snd (run h)
             = (EvPlatformSystem :: EvAccessXOK (tool_path h) :: rest)
             ∧ filter is_platform_system rest = [])
  ∧ length (filter is_platform_system (snd (run h))) = 1%nat.
Proof.
  assert (Hsfx : (exe_suffix (platform_system h) = ".exe"
                  ↔ platform_system h = "Windows")
                 ∧ (exe_suffix (platform_system h) = ""
                    ↔ platform_system h ≠ "Windows")).
  { unfold exe_suffix.
    destruct (String.eqb_spec (platform_system h) "Windows") as [E|E].
    - split; split; intros; try done.
    - split; split; intros; try done. }
  destruct Hsfx as [H1 H2].
  split; [exact H1|]. split; [exact H2|]. split; [reflexivity|].
  assert (Hshape : ∃ rest, snd (run h)
             = (EvPlatformSystem :: EvAccessXOK (tool_path h) :: rest)
             ∧ filter is_platform_system rest = []).
  { rewrite run_stages, resolve_executable_run.
    assert (Hle : filter is_platform_system (load_events h) = []).
    { unfold load_events. destruct (loaded h) as [v|e]; [reflexivity|].
      destruct e; reflexivity. }
    destruct (fs h (tool_path h)) as [f|]; [destruct (executable f)|];
      try (exists []; split; reflexivity).
    rewrite load_version_split.
    destruct (version_record h) as [v|e];
      [|exists (load_events h); split; [reflexivity|exact Hle]].
    rewrite compute_identity_run.
    destruct v; try (exists (load_events h); split; [reflexivity|exact Hle]).
    rewrite emit_run.
    destruct (bound_bdist_wheel h) as [c|e]; simpl.
    - eexists; split; [reflexivity|].
      rewrite filter_app, Hle. reflexivity.
    - eexists; split; [reflexivity|].
      rewrite filter_app, Hle. reflexivity. }
  split; [exact Hshape|].
  destruct Hshape as (rest & -> & Hrest).
  rewrite filter_cons. simpl. rewrite filter_cons. simpl.
  rewrite Hrest. reflexivity.
Qed.

Lemma executable_path_by_platform_witness :
  exe_suffix (platform_system bare_host) = ""
  ∧ tool_path bare_host = "/src/iree_tflite/iree/tools/tflite/iree-import-tflite"
  ∧ exe_suffix "Windows" = ".exe"
  ∧ length (filter is_platform_system (snd (run bare_host))) = 1%nat.
Proof.
  destruct (executable_path_by_platform bare_host) as (_ & Hempty & Hpath & _ & Honce).
  split; [apply Hempty; discriminate|].
  split; [rewrite Hpath; reflexivity|].
  split; [reflexivity | exact Honce].
Defined.

(* ===================================================================== *)
(** ** Package identity *)
(* ===================================================================== *)

Lemma package_identity_strings (h : Host) (d : gmap string pyval) :
  string_field d "package-suffix" →
  string_field d "package-version" →
  package_identity h d = (spec_package_name d, spec_package_version d).
Proof.
  intros Hs Hv.
  unfold package_identity, spec_package_name, spec_package_version,
    PACKAGE_SUFFIX, PACKAGE_VERSION, py_or.
  f_equal.
  - destruct Hs as [-> | [s ->]]; simpl; [reflexivity|].
    destruct (String.eqb_spec s "") as [->|_]; reflexivity.
  - destruct Hv as [-> | [s ->]]; simpl; [reflexivity|].
    destruct (String.eqb_spec s "") as [->|_]; reflexivity.
Qed.

Lemma package_identity_falsy_suffix (h : Host) (d : gmap string pyval) (v : pyval) :
  d !! "package-suffix" = Some v → truthy v = false →
  PACKAGE_SUFFIX d = PStr "" ∧ fst (package_identity h d) = "iree-tools-tflite".
Proof.
  intros Hd Hv. unfold package_identity, PACKAGE_SUFFIX, py_or.
  rewrite Hd. simpl. rewrite Hv. split; reflexivity.
Qed.

Lemma package_identity_falsy_version (h : Host) (d : gmap string pyval) (v : pyval) :
  d !! "package-version" = Some v → truthy v = false →
  PACKAGE_VERSION d = PStr "0.1dev1" ∧ snd (package_identity h d) = "0.1dev1".
Proof.
  intros Hd Hv. unfold package_identity, PACKAGE_VERSION, py_or.
  rewrite Hd. simpl. rewrite Hv. split; reflexivity.
Qed.

(** The calls of [setup] of a run that loaded record [d] carry the
    identity computed from [d]; there is exactly one unless importing
    [wheel] ended the script. *)
Lemma setup_calls_identity (h : Host) (d : gmap string pyval) :
  artifact_ok h →
  version_record h = Returned (PDict d) →
  Forall (fun kw => (name kw, version kw) = package_identity h d)
         (setup_calls (snd (run h)))
  ∧ (∀ c, bound_bdist_wheel h = Returned c →
          length (setup_calls (snd (run h))) = 1%nat).
Proof.
  intros Ha Hv. rewrite (setup_calls_run h d Ha Hv).
  destruct (bound_bdist_wheel h) as [c|e].
  - split; [repeat constructor | reflexivity].
  - split; [constructor | intros c Hc; discriminate Hc].
Qed.

Lemma version_record_loaded (h : Host) (v : pyval) :
  loaded h = Returned v → version_record h = Returned v.
Proof. unfold version_record. intros ->. reflexivity. Qed.

(** C3: for a version record whose two fields, where present, are
    strings, the name passed to [setup] is the base name
    [iree-tools-tflite] followed by the [package-suffix] field (nothing
    when absent), and the version is the [package-version] field, or
    [0.1dev1] when that is absent or empty.  The identity is computed as
    soon as the record is loaded, and every call of [setup] carries it;
    [setup] is called once unless importing [wheel] aborts the script. *)
Theorem package_identity_from_record (h : Host) (d : gmap string pyval) :
  artifact_ok h →
  loaded h = Returned (PDict d) →
  string_field d "package-suffix" →
  string_field d "package-version" →
  package_identity h d = (spec_package_name d, spec_package_version d)
  ∧ Forall (fun kw => name kw = spec_package_name d
                      ∧ version kw = spec_package_version d)
           (setup_calls (snd (run h)))
  ∧ (∀ c, bound_bdist_wheel h = Returned c →
          length (setup_calls (snd (run h))) = 1%nat)
  ∧ (d !! "package-suffix" = Some (PStr "-nightly") →
     d !! "package-version" = Some (PStr "1.2.3") →
     package_identity h d = ("iree-tools-tflite-nightly", "1.2.3")).
Proof.
  intros Ha Hl Hs Hv.
  pose proof (package_identity_strings h d Hs Hv) as Hid.
  destruct (setup_calls_identity h d Ha (version_record_loaded h _ Hl)) as [Hall Hone].
  split; [exact Hid|]. split; [|split; [exact Hone|]].
  - eapply Forall_impl; [exact Hall|].
    intros kw Hkw. simpl in Hkw. rewrite Hid in Hkw.
    injection Hkw as -> ->. split; reflexivity.
  - intros Hn Hw. rewrite Hid.
    unfold spec_package_name, spec_package_version. rewrite Hn, Hw. reflexivity.
Qed.

Lemma package_identity_from_record_witness :
  (artifact_ok nightly_host
   ∧ loaded nightly_host = Returned (PDict nightly_record)
   ∧ string_field nightly_record "package-suffix"
   ∧ string_field nightly_record "package-version")
  ∧ package_identity nightly_host nightly_record
    = ("iree-tools-tflite-nightly", "1.2.3")
  ∧ Forall (fun kw => name kw = "iree-tools-tflite-nightly" ∧ version kw = "1.2.3")
           (setup_calls (snd (run nightly_host)))
  ∧ length (setup_calls (snd (run nightly_host))) = 1%nat.
Proof.
  assert (Ha : artifact_ok nightly_host).
  { exists tool_file. split; reflexivity. }
  assert (Hl : loaded nightly_host = Returned (PDict nightly_record))
    by reflexivity.
  assert (Hs : string_field nightly_record "package-suffix").
  { right. exists "-nightly". reflexivity. }
  assert (Hv : string_field nightly_record "package-version").
  { right. exists "1.2.3". reflexivity. }
  split; [tauto|].
  destruct (package_identity_from_record nightly_host nightly_record Ha Hl Hs Hv)
    as (Hid & Hall & Hone & Hnightly).
  split; [apply Hnightly; reflexivity|].
  split; [exact Hall|].
  apply (Hone (Some (bdist_wheel toy_wheel))). reflexivity.
Defined.

(** C10: the fallback of each field is by truth value, not only by
    absence.  A [package-suffix] that is present but falsy (the empty
    string and [null] among them) gives the empty suffix, so the bare
    base name; a [package-version] that is present but falsy gives
    [0.1dev1].  Every call of [setup] carries the identity so computed. *)
Theorem identity_fallback_by_truthiness (h : Host) (d : gmap string pyval) :
  artifact_ok h →
  loaded h = Returned (PDict d) →
  (∀ v, d !! "package-suffix" = Some v → truthy v = false →
        PACKAGE_SUFFIX d = PStr ""
        ∧ Forall (fun kw => name kw = "iree-tools-tflite")
                 (setup_calls (snd (run h))))
  ∧ (∀ v, d !! "package-version" = Some v → truthy v = false →
          PACKAGE_VERSION d = PStr "0.1dev1"
          ∧ Forall (fun kw => version kw = "0.1dev1")
                   (setup_calls (snd (run h))))
  ∧ truthy PNone = false
  ∧ truthy (PStr "") = false
  ∧ (∀ c, bound_bdist_wheel h = Returned c →
          length (setup_calls (snd (run h))) = 1%nat).
Proof.
  intros Ha Hl.
  destruct (setup_calls_identity h d Ha (version_record_loaded h _ Hl)) as [Hall Hone].
  split; [|split; [|split; [reflexivity|split; [reflexivity|exact Hone]]]].
  - intros v Hd Hv.
    destruct (package_identity_falsy_suffix h d v Hd Hv) as [HS Hn].
    split; [exact HS|].
    eapply Forall_impl; [exact Hall|].
    intros kw Hkw. simpl in Hkw. rewrite <- Hn, <- Hkw. reflexivity.
  - intros v Hd Hv.
    destruct (package_identity_falsy_version h d v Hd Hv) as [HV Hn].
    split; [exact HV|].
    eapply Forall_impl; [exact Hall|].
    intros kw Hkw. simpl in Hkw. rewrite <- Hn, <- Hkw. reflexivity.
Qed.

Lemma identity_fallback_by_truthiness_witness :
  (artifact_ok hollow_host
   ∧ loaded hollow_host = Returned (PDict hollow_record))
  ∧ hollow_record !! "package-suffix" = Some PNone
  ∧ hollow_record !! "package-version" = Some (PStr "")
  ∧ Forall (fun kw => name kw = "iree-tools-tflite")
           (setup_calls (snd (run hollow_host)))
  ∧ Forall (fun kw => version kw = "0.1dev1")
           (setup_calls (snd (run hollow_host)))
  ∧ length (setup_calls (snd (run hollow_host))) = 1%nat.
Proof.
  assert (Ha : artifact_ok hollow_host).
  { exists tool_file. split; reflexivity. }
  assert (Hl : loaded hollow_host = Returned (PDict hollow_record))
    by reflexivity.
  split; [tauto|].
  destruct (identity_fallback_by_truthiness hollow_host hollow_record Ha Hl)
    as (Hsfx & Hver & _ & _ & Hone).
  split; [reflexivity|]. split; [reflexivity|].
  split; [apply (Hsfx PNone); reflexivity|].
  split; [apply (Hver (PStr "")); reflexivity|].
  apply (Hone (Some (bdist_wheel toy_wheel))). reflexivity.
Defined.

(* ===================================================================== *)
(** ** Loading the version record *)
(* ===================================================================== *)

Lemma loaded_absent (h : Host) :
  fs h (VERSION_INFO_FILE h) = None →
  loaded h = Raised (FileNotFoundError (VERSION_INFO_FILE h)).
Proof. unfold loaded. intros ->. reflexivity. Qed.

Lemma identity_of_empty_record (h : Host) :
  package_identity h ∅ = ("iree-tools-tflite", "0.1dev1").
Proof. reflexivity. Qed.

(** C6: when no version file exists, opening it raises
    [FileNotFoundError], which the script handles: it prints
    [version_info.json not found. Using defaults] and goes on with the
    empty record.  The run continues into the last stage with the empty
    suffix and the version [0.1dev1], so every call of [setup] has the
    bare base name and the placeholder version, and the outcome of the
    run is that of the last stage. *)
Theorem absent_version_file_uses_defaults (h : Host) :
  artifact_ok h →
  fs h (VERSION_INFO_FILE h) = None →
  let resolved := [EvPlatformSystem; EvAccessXOK (tool_path h)] in
  load_version h resolved
  = (Returned (PDict ∅),
     (resolved ++ [EvOpen (VERSION_INFO_FILE h); EvPrint not_found_line])%list)
  ∧ run h = emit h (exe_suffix (platform_system h)) (PStr "") (PStr "0.1dev1")
              (resolved ++ [EvOpen (VERSION_INFO_FILE h); EvPrint not_found_line])%list
  ∧ printed (snd (run h)) = [not_found_line]
  ∧ package_identity h ∅ = ("iree-tools-tflite", "0.1dev1")
  ∧ Forall (fun kw => name kw = "iree-tools-tflite" ∧ version kw = "0.1dev1")
           (setup_calls (snd (run h)))
  ∧ (∀ c, bound_bdist_wheel h = Returned c →
          ∃ kw, setup_calls (snd (run h)) = [kw]
                ∧ fst (run h) = match setuptools_setup h kw with
                                | None => Returned tt
                                | Some e => Raised e
                                end).
Proof.
  intros Ha Habs resolved.
  pose proof (loaded_absent h Habs) as Hl.
  assert (Hvr : version_record h = Returned (PDict ∅)).
  { unfold version_record. rewrite Hl. reflexivity. }
  assert (Hle : load_events h
                = [EvOpen (VERSION_INFO_FILE h); EvPrint not_found_line]).
  { unfold load_events. rewrite Hl. reflexivity. }
  assert (Hrun : run h = emit h (exe_suffix (platform_system h)) (PStr "")
                           (PStr "0.1dev1")
                           (resolved ++ [EvOpen (VERSION_INFO_FILE h);
                                         EvPrint not_found_line])%list).
  { rewrite (run_resolved h Ha), Hvr, Hle. reflexivity. }
  split; [rewrite load_version_split, Hvr, Hle; reflexivity|].
  split; [exact Hrun|].
  split.
  { rewrite Hrun, emit_run.
    destruct (bound_bdist_wheel h); reflexivity. }
  split; [reflexivity|].
  destruct (setup_calls_identity h ∅ Ha Hvr) as [Hall _].
  split.
  - eapply Forall_impl; [exact Hall|].
    intros kw Hkw. simpl in Hkw. rewrite identity_of_empty_record in Hkw.
    injection Hkw as -> ->. split; reflexivity.
  - intros c Hc. rewrite Hrun, emit_run, Hc. simpl.
    eexists. split; reflexivity.
Qed.

Lemma absent_version_file_uses_defaults_witness :
  (artifact_ok bare_host ∧ fs bare_host (VERSION_INFO_FILE bare_host) = None)
  ∧ fst (run bare_host) = Returned tt
  ∧ printed (snd (run bare_host)) = [not_found_line]
  ∧ Forall (fun kw => name kw = "iree-tools-tflite" ∧ version kw = "0.1dev1")
           (setup_calls (snd (run bare_host)))
  ∧ length (setup_calls (snd (run bare_host))) = 1%nat.
Proof.
  assert (Ha : artifact_ok bare_host).
  { exists tool_file. split; reflexivity. }
  assert (Habs : fs bare_host (VERSION_INFO_FILE bare_host) = None)
    by reflexivity.
  split; [tauto|].
  destruct (absent_version_file_uses_defaults bare_host Ha Habs)
    as (_ & _ & Hp & _ & Hall & Hone).
  destruct (Hone (Some (bdist_wheel toy_wheel)) eq_refl) as (kw & Hkw & Hout).
  split; [rewrite Hout; reflexivity|].
  split; [exact Hp|]. split; [exact Hall|].
  rewrite Hkw. reflexivity.
Defined.

(** C5: when the version file exists and its text is not a record
    (either [json.load] raises [JSONDecodeError], or it returns a value
    that is not a [dict]), the run ends in that parse failure: the
    [JSONDecodeError] itself, or the [AttributeError] of the first
    [.get] (the specification's VersionFileParseError).  Nothing is
    printed and [setup] is never called, so no default identity is
    used.  An absent file is another matter: there, loading returns
    the empty record. *)
Theorem malformed_version_file_is_fatal (h : Host) (f : file) (text : string) :
  artifact_ok h →
  fs h (VERSION_INFO_FILE h) = Some f →
  read_text f = Returned text →
  unparsable h text →
  (∃ e, run h = (Raised e, [EvPlatformSystem; EvAccessXOK (tool_path h);
                            EvOpen (VERSION_INFO_FILE h)])
        ∧ parse_failure e
        ∧ (∀ m, json_loads h text = Raised (JSONDecodeError m) →
                e = JSONDecodeError m))
  ∧ setup_calls (snd (run h)) = []
  ∧ printed (snd (run h)) = []
  ∧ (∀ h' tr, fs h' (VERSION_INFO_FILE h') = None →
              fst (load_version h' tr) = Returned (PDict ∅)).
Proof.
  intros Ha Hf Hr Hu.
  assert (Hl : loaded h = json_loads h text).
  { unfold loaded. rewrite Hf, Hr. reflexivity. }
  assert (Hrun : ∃ e, run h = (Raised e, [EvPlatformSystem; EvAccessXOK (tool_path h);
                            EvOpen (VERSION_INFO_FILE h)])
        ∧ parse_failure e
        ∧ (∀ m, json_loads h text = Raised (JSONDecodeError m) →
                e = JSONDecodeError m)).
  { rewrite (run_resolved h Ha). unfold version_record, load_events. rewrite Hl.
    destruct Hu as [[m Hm] | (v & Hv & Hnd)].
    - rewrite Hm. eexists; split; [reflexivity|]. split; [exact I|].
      intros m' Hm'. congruence.
    - rewrite Hv.
      destruct v; try (eexists; split; [reflexivity|]; split; [exact I|];
                       intros m' Hm'; congruence).
      exfalso. eapply Hnd. reflexivity. }
  split; [exact Hrun|].
  destruct Hrun as (e & -> & _).
  split; [reflexivity|]. split; [reflexivity|].
  intros h' tr Habs. rewrite load_version_split. unfold version_record.
  rewrite (loaded_absent h' Habs). reflexivity.
Qed.

Lemma malformed_version_file_is_fatal_witness :
  let text := "{" in
  let f := {| executable := false; read_text := Returned text |} in
  (artifact_ok garbled_host
   ∧ fs garbled_host (VERSION_INFO_FILE garbled_host) = Some f
   ∧ read_text f = Returned text
   ∧ unparsable garbled_host text)
  ∧ fst (run garbled_host)
    = Raised (JSONDecodeError "Expecting value: line 1 column 1 (char 0)")
  ∧ setup_calls (snd (run garbled_host)) = []
  ∧ printed (snd (run garbled_host)) = [].
Proof.
  intros text f.
  assert (Ha : artifact_ok garbled_host).
  { exists tool_file. split; reflexivity. }
  assert (Hf : fs garbled_host (VERSION_INFO_FILE garbled_host) = Some f)
    by reflexivity.
  assert (Hr : read_text f = Returned text) by reflexivity.
  assert (Hu : unparsable garbled_host text).
  { left. eexists. reflexivity. }
  split; [tauto|].
  destruct (malformed_version_file_is_fatal garbled_host f text Ha Hf Hr Hu)
    as ((e & Hrun & _ & He) & Hs & Hp & _).
  split; [|split; [exact Hs|exact Hp]].
  rewrite Hrun. simpl. f_equal. apply He. reflexivity.
Defined.

(* ===================================================================== *)
(** ** The command classes *)
(* ===================================================================== *)

(** C9: [bdist_wheel.get_tag] returns the tag of the base class with the
    python tag replaced by [py3] and the abi tag by [none]; the platform
    tag is the one the base class computed, untouched. *)
Theorem get_tag_keeps_platform
    (b : wheel_base) (self : attrs) (python abi plat : string) :
  base_get_tag b self = Returned (python, abi, plat) →
  get_tag (bdist_wheel b) self = Returned ("py3", "none", plat).
Proof.
  intros Hb. simpl. unfold bdist_wheel_get_tag. rewrite Hb. reflexivity.
Qed.

Lemma get_tag_keeps_platform_witness :
  base_get_tag toy_wheel ∅ = Returned ("cp310", "cp310", "linux_x86_64")
  ∧ get_tag (bdist_wheel toy_wheel) ∅ = Returned ("py3", "none", "linux_x86_64").
Proof.
  split; [reflexivity|].
  apply (get_tag_keeps_platform toy_wheel ∅ "cp310" "cp310" "linux_x86_64").
  reflexivity.
Defined.



Lemma cmdclass_bdist_wheel (h : Host) (sfx : string) (s v : pyval)
    (c : option py_class) (p : py_class) :
  cmdclass (setup_arguments h sfx s v c p) !! "bdist_wheel" = Some c.
Proof. simpl. apply lookup_insert_eq. Qed.







(* ===================================================================== *)
(** ** The order of the stages *)
(* ===================================================================== *)

(** The trace of a run: the two events of the first stage, then, if the
    run got that far, those of loading and of emitting. *)
Lemma run_trace_shape (h : Host) :
  ∃ emitted,
    (snd (run h) = [EvPlatformSystem; EvAccessXOK (tool_path h)]
     ∨ snd (run h) = ([EvPlatformSystem; EvAccessXOK (tool_path h)]
                      ++ load_events h ++ emitted)%list)
    ∧ (emitted = [] ∨ emitted = [EvImportWheel]
       ∨ ∃ kw, emitted = [EvImportWheel; EvSetup kw]).
Proof.
  rewrite run_stages, resolve_executable_run.
  destruct (fs h (tool_path h)) as [f|]; [destruct (executable f)|];
    try (exists []; split; [left; reflexivity | left; reflexivity]).
  rewrite load_version_split.
  destruct (version_record h) as [vi|e];
    [|exists []; split; [right; rewrite app_nil_r; reflexivity | left; reflexivity]].
  rewrite compute_identity_run.
  destruct vi;
    try (exists []; split; [right; rewrite app_nil_r; reflexivity | left; reflexivity]).
  rewrite emit_run.
  destruct (bound_bdist_wheel h) as [c|e]; simpl.
  - eexists. split; [right; rewrite <- ?app_assoc; reflexivity|].
    right. right. eexists. reflexivity.
  - eexists. split; [right; rewrite <- ?app_assoc; reflexivity|].
    right. left. reflexivity.
Qed.

Lemma load_events_cases (h : Host) :
  load_events h = [EvOpen (VERSION_INFO_FILE h)]
  ∨ load_events h = [EvOpen (VERSION_INFO_FILE h); EvPrint not_found_line].
Proof.
  unfold load_events. destruct (loaded h) as [v|e]; [left; reflexivity|].
  destruct e; (left; reflexivity) || (right; reflexivity).
Qed.

Lemma run_forward_only (h : Host) : forward_only (snd (run h)).
Proof.
  destruct (run_trace_shape h) as (emitted & [-> | ->] & Hem).
  - stage_order.
  - destruct (load_events_cases h) as [-> | ->];
      destruct Hem as [-> | [-> | [kw ->]]]; stage_order.
Qed.

(* ===================================================================== *)
(** ** Further properties of the command classes *)
(* ===================================================================== *)

(** X1: [bdist_wheel.finalize_options] changes one attribute only: once
    the base class has finalized the options, [root_is_pure] is [False],
    whatever the base class had decided, and every other attribute is as
    the base class left it. *)
Theorem bdist_wheel_finalize_frame (b : wheel_base) (self s0 : attrs) :
  base_wheel_finalize_options b self = Returned s0 →
  ∃ self',
    finalize_options (bdist_wheel b) self = Returned self'
    ∧ self' !! "root_is_pure" = Some (PBool false)
    ∧ ∀ k, k ≠ "root_is_pure" → self' !! k = s0 !! k.
Proof.
  intros Hb. simpl. unfold bdist_wheel_finalize_options. rewrite Hb.
  eexists. split; [reflexivity|]. split; [apply lookup_insert_eq|].
  intros k Hk. apply lookup_insert_ne. congruence.
Qed.

Lemma bdist_wheel_finalize_frame_witness :
  let self : attrs := {[ "plat_name" := PStr "linux_x86_64" ]} in
  let s0 : attrs := <["root_is_pure" := PBool true]> self in
  base_wheel_finalize_options toy_wheel self = Returned s0
  ∧ s0 !! "root_is_pure" = Some (PBool true)
  ∧ ∃ self',
      finalize_options (bdist_wheel toy_wheel) self = Returned self'
      ∧ self' !! "root_is_pure" = Some (PBool false)
      ∧ self' !! "plat_name" = Some (PStr "linux_x86_64").
Proof.
  intros self s0.
  assert (Hb : base_wheel_finalize_options toy_wheel self = Returned s0)
    by reflexivity.
  split; [exact Hb|]. split; [reflexivity|].
  destruct (bdist_wheel_finalize_frame toy_wheel self s0 Hb)
    as (self' & Hf & Hp & Hframe).
  exists self'. split; [exact Hf|]. split; [exact Hp|].
  rewrite (Hframe "plat_name") by discriminate. reflexivity.
Defined.

(** X2: [platlib_install.finalize_options] changes one attribute only:
    once the base class has finalized the options, [install_lib] is
    the value of [install_platlib], whatever the base class had put
    there, and every other attribute is as the base class left it. *)
Theorem platlib_install_finalize_frame
    (i : install_base) (self s0 : attrs) (platlib : pyval) :
  base_install_finalize_options i self = Returned s0 →
  s0 !! "install_platlib" = Some platlib →
  ∃ self',
    finalize_options (platlib_install i) self = Returned self'
    ∧ self' !! "install_lib" = Some platlib
    ∧ ∀ k, k ≠ "install_lib" → self' !! k = s0 !! k.
Proof.
  intros Hb Hp. simpl. unfold platlib_install_finalize_options.
  rewrite Hb, Hp.
  eexists. split; [reflexivity|]. split; [apply lookup_insert_eq|].
  intros k Hk. apply lookup_insert_ne. congruence.
Qed.

Lemma platlib_install_finalize_frame_witness :
  let s0 : attrs :=
    <["install_platlib" := PStr "/usr/lib64/python3/site-packages"]>
      (<["install_lib" := PStr "/usr/lib/python3/site-packages"]> ∅) in
  (base_install_finalize_options toy_install ∅ = Returned s0
   ∧ s0 !! "install_platlib" = Some (PStr "/usr/lib64/python3/site-packages"))
  ∧ s0 !! "install_lib" = Some (PStr "/usr/lib/python3/site-packages")
  ∧ ∃ self',
      finalize_options (platlib_install toy_install) ∅ = Returned self'
      ∧ self' !! "install_lib" = Some (PStr "/usr/lib64/python3/site-packages")
      ∧ self' !! "install_platlib" = Some (PStr "/usr/lib64/python3/site-packages").
Proof.
  intros s0.
  assert (Hb : base_install_finalize_options toy_install ∅ = Returned s0)
    by reflexivity.
  assert (Hp : s0 !! "install_platlib"
               = Some (PStr "/usr/lib64/python3/site-packages")) by reflexivity.
  split; [split; [exact Hb | exact Hp]|]. split; [reflexivity|].
  destruct (platlib_install_finalize_frame toy_install ∅ s0 _ Hb Hp)
    as (self' & Hf & Hl & Hframe).
  exists self'. split; [exact Hf|]. split; [exact Hl|].
  rewrite (Hframe "install_platlib") by discriminate. exact Hp.
Defined.

(** X3: none of the three overriding methods swallows an exception of
    the method it wraps: when the base method raises, the override
    raises the same exception and returns no options or tag.  When the
    base [install] leaves no [install_platlib], reading it raises
    [AttributeError]. *)
Theorem command_methods_propagate
    (b : wheel_base) (i : install_base) (self : attrs) :
  (∀ e, base_wheel_finalize_options b self = Raised e →
        finalize_options (bdist_wheel b) self = Raised e)
  ∧ (∀ e, base_get_tag b self = Raised e →
          get_tag (bdist_wheel b) self = Raised e)
  ∧ (∀ e, base_install_finalize_options i self = Raised e →
          finalize_options (platlib_install i) self = Raised e)
  ∧ (∀ s0, base_install_finalize_options i self = Returned s0 →
           s0 !! "install_platlib" = None →
           ∃ msg, finalize_options (platlib_install i) self
                  = Raised (AttributeError msg)).
Proof.
  split; [|split; [|split]].
  - intros e He. simpl. unfold bdist_wheel_finalize_options.
    rewrite He. reflexivity.
  - intros e He. simpl. unfold bdist_wheel_get_tag. rewrite He. reflexivity.
  - intros e He. simpl. unfold platlib_install_finalize_options.
    rewrite He. reflexivity.
  - intros s0 Hs Hn. simpl. unfold platlib_install_finalize_options.
    rewrite Hs, Hn. eexists. reflexivity.
Qed.

(* ===================================================================== *)
(** ** Further properties of a run *)
(* ===================================================================== *)

Lemma artifact_okb_spec (h : Host) : artifact_ok h ↔ artifact_okb h = true.
Proof.
  unfold artifact_ok, artifact_okb. fold (tool_path h). split.
  - intros (f & -> & Hx). exact Hx.
  - destruct (fs h (tool_path h)) as [f|]; [|discriminate].
    intros Hx. exists f. split; [reflexivity | exact Hx].
Qed.

Lemma run_unresolved (h : Host) :
  artifact_okb h = false →
  run h = (Raised (RuntimeError (tool_not_found (tool_path h))),
           [EvPlatformSystem; EvAccessXOK (tool_path h)]).
Proof.
  unfold artifact_okb. intros Hb. apply run_missing.
  destruct (fs h (tool_path h)) as [f|]; [right; eauto | left; reflexivity].
Qed.

(** The whole run in closed form, once the tool is in place. *)
Lemma run_emitting (h : Host) (d : gmap string pyval) :
  artifact_ok h →
  version_record h = Returned (PDict d) →
  run h =
  match bound_bdist_wheel h with
  | Returned c =>
      ( match setuptools_setup h (arguments_of h d c) with
        | None => Returned tt
        | Some e => Raised e
        end,
        ([EvPlatformSystem; EvAccessXOK (tool_path h)] ++ load_events h
         ++ [EvImportWheel; EvSetup (arguments_of h d c)])%list )
  | Raised e =>
      (Raised e,
       ([EvPlatformSystem; EvAccessXOK (tool_path h)] ++ load_events h
        ++ [EvImportWheel])%list)
  end.
Proof.
  intros Ha Hv. rewrite (run_resolved h Ha), Hv, emit_run.
  unfold arguments_of.
  destruct (bound_bdist_wheel h) as [c|e]; simpl; rewrite <- ?app_assoc; reflexivity.
Qed.

Lemma printed_app (tr1 tr2 : list event) :
  printed (tr1 ++ tr2) = (printed tr1 ++ printed tr2)%list.
Proof.
  induction tr1 as [|ev tr1 IH]; [reflexivity|].
  destruct ev; simpl; rewrite IH; reflexivity.
Qed.

Lemma opened_app (tr1 tr2 : list event) :
  opened (tr1 ++ tr2) = (opened tr1 ++ opened tr2)%list.
Proof.
  induction tr1 as [|ev tr1 IH]; [reflexivity|].
  destruct ev; simpl; rewrite IH; reflexivity.
Qed.

Lemma printed_load_events (h : Host) :
  printed (load_events h) = if version_file_missing h then [not_found_line] else [].
Proof.
  unfold load_events, version_file_missing.
  destruct (loaded h) as [v|e]; [reflexivity|]. destruct e; reflexivity.
Qed.

Lemma opened_load_events (h : Host) :
  opened (load_events h) = [VERSION_INFO_FILE h].
Proof.
  unfold load_events.
  destruct (loaded h) as [v|e]; [reflexivity|]. destruct e; reflexivity.
Qed.

Lemma version_record_missing (h : Host) :
  version_file_missing h = true → version_record h = Returned (PDict ∅).
Proof.
  unfold version_file_missing, version_record.
  destruct (loaded h) as [v|e]; [discriminate|]. destruct e; try discriminate.
  reflexivity.
Qed.

(** The trace of a run past the first stage, in all cases. *)
Lemma run_trace_resolved (h : Host) :
  artifact_ok h →
  ∃ emitted,
    snd (run h) = ([EvPlatformSystem; EvAccessXOK (tool_path h)]
                   ++ load_events h ++ emitted)%list
    ∧ printed emitted = [] ∧ opened emitted = []
    ∧ (emitted = [] ∨ emitted = [EvImportWheel]
       ∨ ∃ d c, version_record h = Returned (PDict d)
                ∧ bound_bdist_wheel h = Returned c
                ∧ emitted = [EvImportWheel; EvSetup (arguments_of h d c)]).
Proof.
  intros Ha. destruct (version_record h) as [v|e] eqn:Hv.
  - destruct v as [| | | | | |d];
      try (rewrite (run_resolved h Ha), Hv; exists []; rewrite app_nil_r;
           repeat split; left; reflexivity).
    rewrite (run_emitting h d Ha Hv).
    destruct (bound_bdist_wheel h) as [c|e] eqn:Hc; simpl.
    + eexists. split; [reflexivity|]. split; [reflexivity|].
      split; [reflexivity|]. right. right. exists d, c. auto.
    + eexists. split; [reflexivity|]. split; [reflexivity|].
      split; [reflexivity|]. right. left. reflexivity.
  - rewrite (run_resolved h Ha), Hv. exists []. rewrite app_nil_r.
    repeat split. left. reflexivity.
Qed.

(** X4: the script runs to its end exactly when the tool is in place,
    the version record (loaded, or empty because the file is missing) is
    a [dict], importing [wheel] succeeds or raises [ImportError], and the
    call of [setup] returns. *)
Theorem script_succeeds_iff (h : Host) :
  fst (run h) = Returned tt
  ↔ artifact_ok h
    ∧ ∃ d c, version_record h = Returned (PDict d)
             ∧ bound_bdist_wheel h = Returned c
             ∧ setuptools_setup h (arguments_of h d c) = None.
Proof.
  split.
  - intros Hrun. destruct (artifact_okb h) eqn:Hb.
    + apply artifact_okb_spec in Hb. split; [exact Hb|].
      destruct (version_record h) as [v|e] eqn:Hv;
        [|rewrite (run_resolved h Hb), Hv in Hrun; discriminate Hrun].
      destruct v as [| | | | | |d];
        try (rewrite (run_resolved h Hb), Hv in Hrun; discriminate Hrun).
      rewrite (run_emitting h d Hb Hv) in Hrun.
      destruct (bound_bdist_wheel h) as [c|e]; [|discriminate Hrun].
      exists d, c. simpl in Hrun.
      destruct (setuptools_setup h (arguments_of h d c)); [discriminate Hrun|].
      auto.
    + rewrite (run_unresolved h Hb) in Hrun. discriminate Hrun.
  - intros (Ha & d & c & Hv & Hc & Hs).
    rewrite (run_emitting h d Ha Hv), Hc. simpl. rewrite Hs. reflexivity.
Qed.

(** X5: [setup] is called at most once in a run, as the last thing the
    script does, and the outcome of the run is then the outcome of that
    call: an exception of the packaging tool leaves the script
    unchanged. *)
Theorem setup_is_called_last (h : Host) :
  setup_calls (snd (run h)) = []
  ∨ ∃ kw, setup_calls (snd (run h)) = [kw]
          ∧ last (snd (run h)) = Some (EvSetup kw)
          ∧ fst (run h) = match setuptools_setup h kw with
                          | None => Returned tt
                          | Some e => Raised e
                          end.
Proof.
  destruct (artifact_okb h) eqn:Hb.
  - apply artifact_okb_spec in Hb.
    destruct (version_record h) as [v|e] eqn:Hv.
    + destruct v as [| | | | | |d];
        try (left; rewrite (run_resolved h Hb), Hv; simpl;
             apply setup_calls_load_events).
      rewrite (run_emitting h d Hb Hv).
      destruct (bound_bdist_wheel h) as [c|e]; cbn [fst snd].
      * right. exists (arguments_of h d c).
        rewrite !setup_calls_app, setup_calls_load_events.
        split; [reflexivity|]. split; [|reflexivity].
        assert (E : ([EvPlatformSystem; EvAccessXOK (tool_path h)] ++ load_events h
                     ++ [EvImportWheel; EvSetup (arguments_of h d c)])%list
                    = (([EvPlatformSystem; EvAccessXOK (tool_path h)] ++ load_events h
                        ++ [EvImportWheel]) ++ [EvSetup (arguments_of h d c)])%list)
          by (rewrite <- !app_assoc; reflexivity).
        rewrite E. apply last_snoc.
      * left. rewrite !setup_calls_app, setup_calls_load_events. reflexivity.
    + left. rewrite (run_resolved h Hb), Hv. simpl. apply setup_calls_load_events.
  - left. rewrite (run_unresolved h Hb). reflexivity.
Qed.

Lemma setup_is_called_last_witness :
  ∃ kw, setup_calls (snd (run failing_setup_host)) = [kw]
        ∧ last (snd (run failing_setup_host)) = Some (EvSetup kw)
        ∧ fst (run failing_setup_host)
          = Raised (LibraryError "SystemExit" "error: invalid command").
Proof.
  destruct (setup_is_called_last failing_setup_host) as [Hnone | (kw & Hkw & Hlast & Hout)].
  - discriminate Hnone.
  - exists kw. split; [exact Hkw|]. split; [exact Hlast|]. exact Hout.
Defined.

(** X6: the clause at line 68 catches [ImportError] only.  When
    importing [wheel] raises anything else, the run ends in that
    exception right after the import, and [setup] is never called. *)
Theorem wheel_import_failure_is_fatal
    (h : Host) (d : gmap string pyval) (e : exn) :
  artifact_ok h →
  version_record h = Returned (PDict d) →
  import_wheel_bdist_wheel h = Raised e →
  is_import_error e = false →
  run h = (Raised e,
           ([EvPlatformSystem; EvAccessXOK (tool_path h)] ++ load_events h
            ++ [EvImportWheel])%list)
  ∧ setup_calls (snd (run h)) = [].
Proof.
  intros Ha Hv Hi He.
  assert (Hc : bound_bdist_wheel h = Raised e).
  { unfold bound_bdist_wheel. rewrite Hi. destruct e; try reflexivity.
    discriminate He. }
  rewrite (run_emitting h d Ha Hv), Hc. split; [reflexivity|].
  simpl. rewrite setup_calls_app, setup_calls_load_events. reflexivity.
Qed.

Lemma wheel_import_failure_is_fatal_witness :
  let e := LibraryError "SyntaxError" "invalid syntax" in
  (artifact_ok broken_wheel_host
   ∧ version_record broken_wheel_host = Returned (PDict ∅)
   ∧ import_wheel_bdist_wheel broken_wheel_host = Raised e
   ∧ is_import_error e = false)
  ∧ fst (run broken_wheel_host) = Raised e
  ∧ setup_calls (snd (run broken_wheel_host)) = [].
Proof.
  intros e.
  assert (Ha : artifact_ok broken_wheel_host).
  { exists tool_file. split; reflexivity. }
  split; [split; [exact Ha | repeat split; reflexivity]|].
  destruct (wheel_import_failure_is_fatal broken_wheel_host ∅ e Ha
              eq_refl eq_refl eq_refl) as [Hrun Hs].
  split; [rewrite Hrun; reflexivity | exact Hs].
Defined.

(** X7: a version file that exists but cannot be read ends the run:
    whatever opening or reading it raises, other than
    [FileNotFoundError], is not handled.  Nothing is printed and [setup]
    is never called. *)
Theorem unreadable_version_file_is_fatal (h : Host) (f : file) (e : exn) :
  artifact_ok h →
  fs h (VERSION_INFO_FILE h) = Some f →
  read_text f = Raised e →
  is_file_not_found e = false →
  run h = (Raised e, [EvPlatformSystem; EvAccessXOK (tool_path h);
                      EvOpen (VERSION_INFO_FILE h)])
  ∧ setup_calls (snd (run h)) = []
  ∧ printed (snd (run h)) = [].
Proof.
  intros Ha Hf Hr He.
  assert (Hl : loaded h = Raised e).
  { unfold loaded. rewrite Hf, Hr. reflexivity. }
  assert (Hrun : run h = (Raised e, [EvPlatformSystem; EvAccessXOK (tool_path h);
                                     EvOpen (VERSION_INFO_FILE h)])).
  { rewrite (run_resolved h Ha). unfold version_record, load_events. rewrite Hl.
    destruct e; try reflexivity. discriminate He. }
  rewrite Hrun. repeat split.
Qed.

Lemma unreadable_version_file_is_fatal_witness :
  let e := LibraryError "PermissionError" "Permission denied" in
  let f := {| executable := false; read_text := Raised e |} in
  (artifact_ok locked_host
   ∧ fs locked_host (VERSION_INFO_FILE locked_host) = Some f
   ∧ read_text f = Raised e
   ∧ is_file_not_found e = false)
  ∧ fst (run locked_host) = Raised e
  ∧ setup_calls (snd (run locked_host)) = []
  ∧ printed (snd (run locked_host)) = [].
Proof.
  intros e f.
  assert (Ha : artifact_ok locked_host).
  { exists tool_file. split; reflexivity. }
  split; [split; [exact Ha | repeat split; reflexivity]|].
  destruct (unreadable_version_file_is_fatal locked_host f e Ha
              eq_refl eq_refl eq_refl) as (Hrun & Hs & Hp).
  split; [rewrite Hrun; reflexivity|]. split; [exact Hs | exact Hp].
Defined.

Lemma setup_calls_exact (h : Host) :
  setup_calls (snd (run h)) = []
  ∨ ∃ d c, artifact_ok h
           ∧ version_record h = Returned (PDict d)
           ∧ bound_bdist_wheel h = Returned c
           ∧ setup_calls (snd (run h)) = [arguments_of h d c].
Proof.
  destruct (artifact_okb h) eqn:Hb;
    [|left; rewrite (run_unresolved h Hb); reflexivity].
  apply artifact_okb_spec in Hb.
  destruct (run_trace_resolved h Hb) as (emitted & -> & _ & _ & Hem).
  rewrite !setup_calls_app, setup_calls_load_events.
  destruct Hem as [-> | [-> | (d & c & Hv & Hc & ->)]];
    [left; reflexivity | left; reflexivity |].
  right. exists d, c. auto.
Qed.

(** X8: the line [version_info.json not found. Using defaults] is
    printed exactly when the tool check passed and loading the version
    record raised [FileNotFoundError]; nothing else is ever printed.
    When it is printed, the defaults are what every call of [setup]
    gets: the bare base name and the version [0.1dev1]. *)
Theorem defaults_line_iff_missing (h : Host) :
  printed (snd (run h))
  = (if artifact_okb h && version_file_missing h then [not_found_line] else [])
  ∧ (printed (snd (run h)) ≠ [] →
     Forall (fun kw => name kw = "iree-tools-tflite" ∧ version kw = "0.1dev1")
            (setup_calls (snd (run h)))).
Proof.
  assert (Hp : printed (snd (run h))
               = if artifact_okb h && version_file_missing h
                 then [not_found_line] else []).
  { destruct (artifact_okb h) eqn:Hb;
      [|rewrite (run_unresolved h Hb); reflexivity].
    apply artifact_okb_spec in Hb.
    destruct (run_trace_resolved h Hb) as (emitted & -> & Hpe & _ & _).
    rewrite !printed_app, Hpe, printed_load_events, app_nil_r. reflexivity. }
  split; [exact Hp|].
  rewrite Hp. intros Hne.
  destruct (artifact_okb h) eqn:Hb; [|contradiction Hne; reflexivity].
  destruct (version_file_missing h) eqn:Hm; [|contradiction Hne; reflexivity].
  apply artifact_okb_spec in Hb.
  destruct (setup_calls_identity h ∅ Hb (version_record_missing h Hm)) as [Hall _].
  eapply Forall_impl; [exact Hall|].
  intros kw Hkw. simpl in Hkw. rewrite identity_of_empty_record in Hkw.
  injection Hkw as -> ->. split; reflexivity.
Qed.

Lemma defaults_line_iff_missing_witness :
  printed (snd (run bare_host)) = [not_found_line]
  ∧ Forall (fun kw => name kw = "iree-tools-tflite" ∧ version kw = "0.1dev1")
           (setup_calls (snd (run bare_host)))
  ∧ printed (snd (run nightly_host)) = []
  ∧ printed (snd (run (linux_host None None no_wheel))) = [].
Proof.
  destruct (defaults_line_iff_missing bare_host) as [Hp Hd].
  split; [rewrite Hp; reflexivity|].
  split; [apply Hd; rewrite Hp; discriminate|].
  split.
  - rewrite (proj1 (defaults_line_iff_missing nightly_host)). reflexivity.
  - rewrite (proj1 (defaults_line_iff_missing (linux_host None None no_wheel))).
    reflexivity.
Defined.

(** X9: what a run touches is confined.  The only path whose access is
    checked is that of the tool, the only file opened is the version
    file, and it is opened once when the tool check passed and never
    otherwise; the only line printed is the one about defaults. *)
Theorem run_is_confined (h : Host) :
  (∀ ev, ev ∈ snd (run h) →
         ev = EvPlatformSystem
         ∨ ev = EvAccessXOK (tool_path h)
         ∨ ev = EvOpen (VERSION_INFO_FILE h)
         ∨ ev = EvPrint not_found_line
         ∨ ev = EvImportWheel
         ∨ ∃ kw, ev = EvSetup kw)
  ∧ opened (snd (run h)) = (if artifact_okb h then [VERSION_INFO_FILE h] else []).
Proof.
  split.
  - destruct (run_trace_shape h) as (emitted & [-> | ->] & Hem).
    + intros ev Hin. rewrite !elem_of_cons, elem_of_nil in Hin.
      repeat (destruct Hin as [-> | Hin]; [eauto 10|]). contradiction.
    + destruct (load_events_cases h) as [-> | ->];
        destruct Hem as [-> | [-> | [kw ->]]];
        intros ev Hin; simpl in Hin;
        rewrite !elem_of_cons, elem_of_nil in Hin;
        repeat (destruct Hin as [-> | Hin]; [eauto 10|]); contradiction.
  - destruct (artifact_okb h) eqn:Hb;
      [|rewrite (run_unresolved h Hb); reflexivity].
    apply artifact_okb_spec in Hb.
    destruct (run_trace_resolved h Hb) as (emitted & -> & _ & Hoe & _).
    rewrite !opened_app, Hoe, opened_load_events. reflexivity.
Qed.

(** X10: the file the package bundles is the file that was checked:
    every call of [setup] lists under [iree.tools.tflite] exactly one
    file name, the base name with the suffix of the platform, and the
    path checked at line 25 ends in that same name. *)
Theorem bundled_file_is_checked_file (h : Host) :
  Forall (fun kw =>
            ∃ fname,
              package_data kw !! "iree.tools.tflite" = Some [fname]
              ∧ fname = "iree-import-tflite" +:+ exe_suffix (platform_system h)
              ∧ tool_path h
                = os_path_join h (dirname_file h) ["iree"; "tools"; "tflite"; fname]
              ∧ artifact_ok h)
         (setup_calls (snd (run h))).
Proof.
  destruct (setup_calls_exact h) as [-> | (d & c & Ha & _ & _ & ->)];
    [constructor|].
  constructor; [|constructor].
  exists ("iree-import-tflite" +:+ exe_suffix (platform_system h)).
  split; [apply lookup_singleton_eq|]. auto.
Qed.

Lemma bundled_file_is_checked_file_witness :
  ∃ kw, setup_calls (snd (run windows_host)) = [kw]
        ∧ package_data kw !! "iree.tools.tflite" = Some ["iree-import-tflite.exe"]
        ∧ tool_path windows_host
          = "C:\src\iree_tflite\iree\tools\tflite\iree-import-tflite.exe".
Proof.
  pose proof (bundled_file_is_checked_file windows_host) as Hall.
  assert (Hcalls : ∃ kw, setup_calls (snd (run windows_host)) = [kw])
    by (eexists; reflexivity).
  destruct Hcalls as [kw Hkw]. rewrite Hkw in Hall.
  apply Forall_cons in Hall as [(fname & Hdata & -> & Hpath & _) _].
  exists kw. split; [exact Hkw|]. split; [exact Hdata|]. reflexivity.
Defined.

(** X11: keys of the version record other than [package-suffix] and
    [package-version] are ignored: adding or changing one leaves every
    argument of the call of [setup] as it was. *)
Theorem unknown_keys_are_ignored
    (h : Host) (d : gmap string pyval) (c : option py_class) (k : string) (v : pyval) :
  k ≠ "package-suffix" →
  k ≠ "package-version" →
  package_identity h (<[k := v]> d) = package_identity h d
  ∧ arguments_of h (<[k := v]> d) c = arguments_of h d c.
Proof.
  intros Hs Hv.
  assert (HS : PACKAGE_SUFFIX (<[k := v]> d) = PACKAGE_SUFFIX d).
  { unfold PACKAGE_SUFFIX. rewrite lookup_insert_ne by exact Hs. reflexivity. }
  assert (HV : PACKAGE_VERSION (<[k := v]> d) = PACKAGE_VERSION d).
  { unfold PACKAGE_VERSION. rewrite lookup_insert_ne by exact Hv. reflexivity. }
  unfold package_identity, arguments_of. rewrite HS, HV. split; reflexivity.
Qed.

Lemma unknown_keys_are_ignored_witness :
  ("build-id" ≠ "package-suffix" ∧ "build-id" ≠ "package-version")
  ∧ package_identity nightly_host (<["build-id" := PInt 42]> nightly_record)
    = ("iree-tools-tflite-nightly", "1.2.3").
Proof.
  split; [split; discriminate|].
  rewrite (proj1 (unknown_keys_are_ignored nightly_host nightly_record None
                    "build-id" (PInt 42) ltac:(discriminate) ltac:(discriminate))).
  reflexivity.
Defined.

(* ===================================================================== *)
(** ** The stages and the failures that end a run *)
(* ===================================================================== *)

(** C7, as the code has it: the stages run in the order resolve,
    load-version, compute-identity, emit, and the trace never goes back
    to an earlier stage.  A stage that raises ends the run with that
    exception, and the trace holds nothing of a later stage.  Two
    exceptions raised on the way are handled and do not end the run:
    the [FileNotFoundError] of loading the version record (the script
    prints a line and continues with the empty record), and, in the
    last stage, the [ImportError] of importing [wheel] (the script
    binds [None] to [bdist_wheel] and still calls [setup]).  Every
    other exception of loading, of the import and of [setup] ends the
    run; a run that completes met no other failure than those two. *)
Theorem stage_failures_end_the_run (h : Host) :
  forward_only (snd (run h))
  ∧ (∀ e tr1,
       resolve_executable h [] = (Raised e, tr1) →
       run h = (Raised e, tr1) ∧ nothing_after Resolve tr1)
  ∧ (∀ sfx tr1 e tr2,
       resolve_executable h [] = (Returned sfx, tr1) →
       load_version h tr1 = (Raised e, tr2) →
       run h = (Raised e, tr2) ∧ nothing_after LoadVersion tr2)
  ∧ (∀ sfx tr1 vi tr2 e tr3,
       resolve_executable h [] = (Returned sfx, tr1) →
       load_version h tr1 = (Returned vi, tr2) →
       compute_identity vi tr2 = (Raised e, tr3) →
       run h = (Raised e, tr3) ∧ nothing_after ComputeIdentity tr3)
  ∧ (∀ sfx tr1 vi tr2 s v tr3,
       resolve_executable h [] = (Returned sfx, tr1) →
       load_version h tr1 = (Returned vi, tr2) →
       compute_identity vi tr2 = (Returned (s, v), tr3) →
       run h = emit h sfx s v tr3)
  ∧ (∀ tr e tr',
       load_version_info h tr = (Raised e, tr') →
       match e with
       | FileNotFoundError _ =>
           load_version h tr
           = (Returned (PDict ∅), (tr' ++ [EvPrint not_found_line])%list)
       | _ => load_version h tr = (Raised e, tr')
       end)
  ∧ (∀ sfx s v tr e,
       import_wheel_bdist_wheel h = Raised e →
       match e with
       | ImportError _ =>
           let kw := setup_arguments h sfx s v None
                       (platlib_install (distutils_install h)) in
           cmdclass kw !! "bdist_wheel" = Some None
           ∧ emit h sfx s v tr
             = (match setuptools_setup h kw with
                | None => Returned tt
                | Some e' => Raised e'
                end, (tr ++ [EvImportWheel; EvSetup kw])%list)
       | _ => emit h sfx s v tr = (Raised e, (tr ++ [EvImportWheel])%list)
       end)
  ∧ (∀ sfx s v tr c e,
       bound_bdist_wheel h = Returned c →
       setuptools_setup h
         (setup_arguments h sfx s v c (platlib_install (distutils_install h)))
       = Some e →
       fst (emit h sfx s v tr) = Raised e)
  ∧ (fst (run h) = Returned tt →
     artifact_ok h
     ∧ (∀ e, loaded h = Raised e → is_file_not_found e = true)
     ∧ (∀ e, import_wheel_bdist_wheel h = Raised e → is_import_error e = true)
     ∧ Forall (fun kw => setuptools_setup h kw = None) (setup_calls (snd (run h)))).
Proof.
  split; [apply run_forward_only|].
  split; [|split; [|split; [|split; [|split; [|split; [|split]]]]]].
  - intros e tr1 H1. rewrite run_stages, H1. split; [reflexivity|].
    rewrite resolve_executable_run in H1. injection H1 as _ <-.
    unfold nothing_after. stage_order.
  - intros sfx tr1 e tr2 H1 H2. rewrite run_stages, H1, H2.
    split; [reflexivity|].
    rewrite resolve_executable_run in H1. injection H1 as _ <-.
    rewrite load_version_split in H2. injection H2 as _ <-.
    unfold nothing_after.
    destruct (load_events_cases h) as [-> | ->]; stage_order.
  - intros sfx tr1 vi tr2 e tr3 H1 H2 H3. rewrite run_stages, H1, H2, H3.
    split; [reflexivity|].
    rewrite resolve_executable_run in H1. injection H1 as _ <-.
    rewrite load_version_split in H2. injection H2 as _ <-.
    rewrite compute_identity_run in H3. injection H3 as _ <-.
    unfold nothing_after.
    destruct (load_events_cases h) as [-> | ->]; stage_order.
  - intros sfx tr1 vi tr2 s v tr3 H1 H2 H3.
    rewrite run_stages, H1, H2, H3. reflexivity.
  - intros tr e tr' Hl. unfold load_version, try_except. rewrite Hl.
    destruct e; try reflexivity.
  - intros sfx s v tr e Hi. rewrite emit_run. unfold bound_bdist_wheel.
    rewrite Hi. destruct e; try reflexivity.
    split; [apply cmdclass_bdist_wheel | reflexivity].
  - intros sfx s v tr c e Hc Hs. rewrite emit_run, Hc. simpl.
    rewrite Hs. reflexivity.
  - intros Hrun. destruct (artifact_okb h) eqn:Hb;
      [|rewrite (run_unresolved h Hb) in Hrun; discriminate Hrun].
    apply artifact_okb_spec in Hb. split; [exact Hb|].
    destruct (version_record h) as [vi|e] eqn:Hv;
      [|rewrite (run_resolved h Hb), Hv in Hrun; discriminate Hrun].
    destruct vi as [| | | | | |d];
      try (rewrite (run_resolved h Hb), Hv in Hrun; discriminate Hrun).
    split.
    { intros e He. unfold version_record in Hv. rewrite He in Hv.
      destruct e; try discriminate Hv; reflexivity. }
    rewrite (run_emitting h d Hb Hv) in Hrun.
    rewrite (setup_calls_run h d Hb Hv).
    destruct (bound_bdist_wheel h) as [c|e] eqn:Hc; [|discriminate Hrun].
    split.
    { intros e He. unfold bound_bdist_wheel in Hc. rewrite He in Hc.
      destruct e; try discriminate Hc; reflexivity. }
    simpl in Hrun. fold (arguments_of h d c).
    destruct (setuptools_setup h (arguments_of h d c)) eqn:Hs; [discriminate Hrun|].
    constructor; [exact Hs | constructor].
Qed.

Lemma stage_failures_end_the_run_witness :
  let vf := VERSION_INFO_FILE garbled_host in
  let failure := JSONDecodeError "Expecting value: line 1 column 1 (char 0)" in
  (resolve_executable garbled_host []
   = (Returned "", [EvPlatformSystem; EvAccessXOK (tool_path garbled_host)])
   ∧ load_version garbled_host [EvPlatformSystem; EvAccessXOK (tool_path garbled_host)]
     = (Raised failure,
        [EvPlatformSystem; EvAccessXOK (tool_path garbled_host); EvOpen vf]))
  ∧ run garbled_host
    = (Raised failure,
       [EvPlatformSystem; EvAccessXOK (tool_path garbled_host); EvOpen vf])
  ∧ nothing_after LoadVersion (snd (run garbled_host))
  ∧ forward_only (snd (run wheelless_host))
  ∧ map stage_of (snd (run wheelless_host))
    = [Resolve; Resolve; LoadVersion; LoadVersion; Emit; Emit]
  ∧ fst (run wheelless_host) = Returned tt
  ∧ (∀ e, loaded wheelless_host = Raised e → is_file_not_found e = true)
  ∧ (∀ e, import_wheel_bdist_wheel wheelless_host = Raised e →
          is_import_error e = true).
Proof.
  intros vf failure.
  assert (H1 : resolve_executable garbled_host []
               = (Returned "", [EvPlatformSystem; EvAccessXOK (tool_path garbled_host)]))
    by reflexivity.
  assert (H2 : load_version garbled_host
                 [EvPlatformSystem; EvAccessXOK (tool_path garbled_host)]
               = (Raised failure,
                  [EvPlatformSystem; EvAccessXOK (tool_path garbled_host); EvOpen vf]))
    by reflexivity.
  destruct (stage_failures_end_the_run garbled_host) as (_ & _ & Hload & _).
  destruct (Hload _ _ _ _ H1 H2) as [Hrun Hafter].
  split; [split; [exact H1 | exact H2]|]. split; [exact Hrun|].
  split; [rewrite Hrun; exact Hafter|].
  destruct (stage_failures_end_the_run wheelless_host)
    as (Hfwd & _ & _ & _ & _ & _ & _ & _ & Hdone).
  split; [exact Hfwd|]. split; [reflexivity|]. split; [reflexivity|].
  destruct (Hdone eq_refl) as (_ & Hl & Hi & _).
  split; [exact Hl | exact Hi].
Defined.

(** C7, as stated, fails where the version file is there and [wheel] is
    not installed: loading raises nothing, importing [wheel] in the last
    stage raises [ImportError], and the run still goes on, calls [setup]
    with [None] for [bdist_wheel] and completes.  So the file-not-found
    case is not the only failure that does not end the run. *)
Lemma import_error_does_not_end_the_run :
  loaded nightly_wheelless_host = Returned (PDict nightly_record)
  ∧ import_wheel_bdist_wheel nightly_wheelless_host
    = Raised (ImportError "No module named 'wheel'")
  ∧ fst (run nightly_wheelless_host) = Returned tt
  ∧ printed (snd (run nightly_wheelless_host)) = []
  ∧ ∃ kw, snd (run nightly_wheelless_host)
          = [EvPlatformSystem;
             EvAccessXOK (tool_path nightly_wheelless_host);
             EvOpen (VERSION_INFO_FILE nightly_wheelless_host);
             EvImportWheel;
             EvSetup kw]
          ∧ cmdclass kw !! "bdist_wheel" = Some None.
Proof.
  split; [reflexivity|]. split; [reflexivity|]. split; [reflexivity|].
  split; [reflexivity|].
  eexists. split; reflexivity.
Qed.
